(** * uKernel: a cooperative round-robin task scheduler for microcontrollers

    Shallow embedding of [uKernel.c] / [uKernel.h] and the properties of the
    scheduler core that follow from the code.

    Memory model.  Task descriptors are caller-owned C structs; the scheduler
    only ever follows pointers to them.  Caller memory is a finite map from
    addresses to descriptors, the null pointer is address [0], and reading or
    writing through a null pointer or through an address that holds no
    descriptor is a [Fault].  The two pointer-chasing [while] loops of the
    source take a fuel argument and answer [Timeout] when it runs out.

    Collaborators.  A task body is an opaque [void (void)] function and
    [ClrWdt()] is a macro of the target; both are recorded in an event trace
    ([Call], [Wdt]) and leave the scheduler variables alone. *)

From stdpp Require Import gmap list.
From Stdlib Require Import ZArith Lia.

Local Open Scope Z_scope.

(** ** Machine integers *)

Definition wrap32 (x : Z) : Z := x mod 2 ^ 32.
Definition wrap8 (x : Z) : Z := x mod 2 ^ 8.

(** [(int32_t) x] for [x] a [uint32_t] value. *)
Definition to_int32 (x : Z) : Z := if x <? 2 ^ 31 then x else x - 2 ^ 32.

(** ** uKernel.h *)

Definition MAX_TASKS_NUMBER : Z := 255.
Definition MAX_TASK_INTERVAL : Z := 3600000.

Definition uKernel_PAUSED : Z := 0x00.
Definition uKernel_SCHEDULED : Z := 0x01.
Definition uKernel_ONETIME : Z := 0x02.
Definition uKernel_IMMEDIATESTART : Z := 0x05.
Definition uKernel_ONETIME_IMMEDIATESTART : Z := 0x07.
Definition uKernel_ERROR : Z := 0xFF.

(** Data pointers and function pointers are addresses; [NULL] is 0. *)
Abbreviation ptr := N (only parsing).
Abbreviation fnptr := N (only parsing).
Definition NULL : N := 0%N.

Record uKernelTaskDescriptor := TaskDescriptor {
  taskPointer : fnptr;
  userTasksInterval : Z;
  plannedTask : Z;
  taskStatus : Z;
  pTaskNext : ptr
}.

(** ** The globals of uKernel.c, caller memory and the event trace *)

Inductive event :=
| Call (p : ptr) (f : fnptr)
| Wdt.

Record kernel := Kernel {
  _initialized : bool;
  _counterMs : Z;
  _numberTasks : Z;
  pTaskSchedule : ptr;
  pTaskFirst : ptr;
  mem : gmap N uKernelTaskDescriptor;
  trace : list event
}.

Definition set_initialized (b : bool) (s : kernel) : kernel :=
  Kernel b (_counterMs s) (_numberTasks s) (pTaskSchedule s) (pTaskFirst s) (mem s) (trace s).
Definition set_counterMs (c : Z) (s : kernel) : kernel :=
  Kernel (_initialized s) c (_numberTasks s) (pTaskSchedule s) (pTaskFirst s) (mem s) (trace s).
Definition set_numberTasks (n : Z) (s : kernel) : kernel :=
  Kernel (_initialized s) (_counterMs s) n (pTaskSchedule s) (pTaskFirst s) (mem s) (trace s).
Definition set_pTaskSchedule (p : ptr) (s : kernel) : kernel :=
  Kernel (_initialized s) (_counterMs s) (_numberTasks s) p (pTaskFirst s) (mem s) (trace s).
Definition set_pTaskFirst (p : ptr) (s : kernel) : kernel :=
  Kernel (_initialized s) (_counterMs s) (_numberTasks s) (pTaskSchedule s) p (mem s) (trace s).
Definition set_mem (m : gmap N uKernelTaskDescriptor) (s : kernel) : kernel :=
  Kernel (_initialized s) (_counterMs s) (_numberTasks s) (pTaskSchedule s) (pTaskFirst s) m (trace s).
Definition emit (e : event) (s : kernel) : kernel :=
  Kernel (_initialized s) (_counterMs s) (_numberTasks s) (pTaskSchedule s) (pTaskFirst s) (mem s)
         (trace s ++ [e]).

Definition set_taskPointer (f : fnptr) (d : uKernelTaskDescriptor) :=
  TaskDescriptor f (userTasksInterval d) (plannedTask d) (taskStatus d) (pTaskNext d).
Definition set_userTasksInterval (i : Z) (d : uKernelTaskDescriptor) :=
  TaskDescriptor (taskPointer d) i (plannedTask d) (taskStatus d) (pTaskNext d).
Definition set_plannedTask (t : Z) (d : uKernelTaskDescriptor) :=
  TaskDescriptor (taskPointer d) (userTasksInterval d) t (taskStatus d) (pTaskNext d).
Definition set_taskStatus (st : Z) (d : uKernelTaskDescriptor) :=
  TaskDescriptor (taskPointer d) (userTasksInterval d) (plannedTask d) st (pTaskNext d).
Definition set_pTaskNext (n : ptr) (d : uKernelTaskDescriptor) :=
  TaskDescriptor (taskPointer d) (userTasksInterval d) (plannedTask d) (taskStatus d) n.

(** ** Results of running C code *)

Inductive result (A : Type) :=
| Ok (a : A)
| Fault
| Timeout.
Arguments Ok {A} a.
Arguments Fault {A}.
Arguments Timeout {A}.

Definition bind {A B} (r : result A) (k : A -> result B) : result B :=
  match r with
  | Ok a => k a
  | Fault => Fault
  | Timeout => Timeout
  end.

Notation "x <- r ;; k" := (bind r (fun x => k))
  (at level 100, r at next level, right associativity).

(** [p->field] as an rvalue. *)
Definition load (m : gmap N uKernelTaskDescriptor) (p : ptr) : result uKernelTaskDescriptor :=
  if (p =? NULL)%N then Fault
  else match m !! p with
       | Some d => Ok d
       | None => Fault
       end.

(** [p->field = v], given as the update [f] of the whole struct. *)
Definition store (p : ptr) (f : uKernelTaskDescriptor -> uKernelTaskDescriptor) (s : kernel)
  : result kernel :=
  d <- load (mem s) p ;;
  Ok (set_mem (<[p := f d]> (mem s)) s).

(** ** uKernel.c *)

Definition uKernelInit (s : kernel) : kernel :=
  let s := set_initialized true s in
  let s := set_counterMs 0 s in
  let s := set_numberTasks 0 s in
  set_pTaskSchedule NULL s.

(** [while (w->pTaskNext != target) w = w->pTaskNext;] and the final [w].
    The loop appears twice in the source: in [uKernelAddTask] (looking for the
    last task) and in [uKernelRemoveTask] (looking for the predecessor). *)
Fixpoint walk (fuel : nat) (m : gmap N uKernelTaskDescriptor) (w target : ptr) : result ptr :=
  match fuel with
  | O => Timeout
  | S fuel' =>
      d <- load m w ;;
      if (pTaskNext d =? target)%N then Ok w else walk fuel' m (pTaskNext d) target
  end.

Definition uKernelAddTask (fuel : nat) (pTaskDescriptor : ptr) (userTask : fnptr)
    (taskInterval taskStatus : Z) (s : kernel) : result (bool * kernel) :=
  if negb (_initialized s) || (_numberTasks s =? MAX_TASKS_NUMBER) || (userTask =? NULL)%N
  then Ok (false, s)
  else
    let taskInterval :=
      if (taskInterval <? 1) || (taskInterval >? MAX_TASK_INTERVAL) then 50 else taskInterval in
    let taskStatus :=
      if taskStatus >? uKernel_ONETIME_IMMEDIATESTART then uKernel_SCHEDULED else taskStatus in
    if negb (pTaskDescriptor =? NULL)%N then
      s <- (if negb (pTaskFirst s =? NULL)%N then
              pTaskWork <- walk fuel (mem s) (pTaskSchedule s) (pTaskFirst s) ;;
              s <- store pTaskWork (set_pTaskNext pTaskDescriptor) s ;;
              store pTaskDescriptor (set_pTaskNext (pTaskFirst s)) s
            else
              let s := set_pTaskFirst pTaskDescriptor s in
              let s := set_pTaskSchedule (pTaskFirst s) s in
              store pTaskDescriptor (set_pTaskNext pTaskDescriptor) s) ;;
      s <- store pTaskDescriptor
             (set_plannedTask
                (wrap32 (_counterMs s + (if Z.land taskStatus 0x04 =? 0 then taskInterval else 0))))
             s ;;
      s <- store pTaskDescriptor (set_userTasksInterval taskInterval) s ;;
      s <- store pTaskDescriptor (set_taskPointer userTask) s ;;
      s <- store pTaskDescriptor (set_taskStatus (Z.land taskStatus 0x03)) s ;;
      Ok (true, set_numberTasks (wrap8 (_numberTasks s + 1)) s)
    else
      let s := set_pTaskFirst NULL s in
      let s := set_pTaskSchedule NULL s in
      Ok (true, s).

Definition uKernelRemoveTask (fuel : nat) (pTaskDescriptor : ptr) (s : kernel)
  : result (bool * kernel) :=
  if negb (_initialized s) || (_numberTasks s =? 0) || (pTaskDescriptor =? NULL)%N
  then Ok (false, s)
  else
    pTaskCurr <- walk fuel (mem s) (pTaskFirst s) pTaskDescriptor ;;
    dCurr <- load (mem s) pTaskCurr ;;
    s <- (if (pTaskNext dCurr =? pTaskFirst s)%N then
            dNext <- load (mem s) (pTaskNext dCurr) ;;
            Ok (set_pTaskFirst (pTaskNext dNext) s)
          else
            dDesc <- load (mem s) pTaskDescriptor ;;
            store pTaskCurr (set_pTaskNext (pTaskNext dDesc)) s) ;;
    Ok (true, set_numberTasks (wrap8 (_numberTasks s - 1)) s).

Definition uKernelSetTask (pTaskDescriptor : ptr) (taskInterval tStatus : Z) (s : kernel)
  : result (bool * kernel) :=
  if negb (_initialized s) || (_numberTasks s =? MAX_TASKS_NUMBER) || (pTaskDescriptor =? NULL)%N
  then Ok (false, s)
  else
    s <- store pTaskDescriptor (set_taskStatus tStatus) s ;;
    s <- (if tStatus =? uKernel_SCHEDULED then
            if taskInterval =? 0 then
              d <- load (mem s) pTaskDescriptor ;;
              store pTaskDescriptor (set_plannedTask (wrap32 (_counterMs s + userTasksInterval d))) s
            else
              store pTaskDescriptor (set_plannedTask (wrap32 (_counterMs s + taskInterval))) s
          else Ok s) ;;
    Ok (true, s).

Definition uKernelPauseTask (pTaskDescriptor : ptr) (s : kernel) : result (bool * kernel) :=
  uKernelSetTask pTaskDescriptor 0 uKernel_PAUSED s.

Definition uKernelResumeTask (pTaskDescriptor : ptr) (taskStatus : Z) (s : kernel)
  : result (bool * kernel) :=
  uKernelSetTask pTaskDescriptor 0 taskStatus s.

Definition uKernelModifyTask (pTaskDescriptor : ptr) (taskInterval tStatus : Z) (s : kernel)
  : result (bool * kernel) :=
  if negb (_initialized s) || (_numberTasks s =? MAX_TASKS_NUMBER) || (pTaskDescriptor =? NULL)%N
  then Ok (false, s)
  else if tStatus >? uKernel_ONETIME_IMMEDIATESTART then Ok (false, s)
  else
    s <- store pTaskDescriptor (set_userTasksInterval taskInterval) s ;;
    s <- store pTaskDescriptor (set_taskStatus tStatus) s ;;
    s <- (if (tStatus =? uKernel_SCHEDULED) || (tStatus =? uKernel_ONETIME) then
            store pTaskDescriptor (set_plannedTask (wrap32 (_counterMs s + taskInterval))) s
          else
            store pTaskDescriptor (set_plannedTask 0) s) ;;
    Ok (true, s).

Definition uKernelGetTaskStatus (pTaskDescriptor : ptr) (s : kernel) : result Z :=
  if negb (_initialized s) || (_numberTasks s =? MAX_TASKS_NUMBER) || (pTaskDescriptor =? NULL)%N
  then Ok uKernel_ERROR
  else
    d <- load (mem s) pTaskDescriptor ;;
    Ok (taskStatus d).

(** A task body is called through its function pointer; the call is recorded
    with the descriptor it was made for.  Calling a null function pointer is
    a fault. *)
Definition call (p : ptr) (f : fnptr) (s : kernel) : result kernel :=
  if (f =? NULL)%N then Fault else Ok (emit (Call p f) s).

(** The test of the dispatch loop: [(int32_t) (_counterMs - plannedTask) >= 0]. *)
Definition due (counter planned : Z) : bool :=
  0 <=? to_int32 (wrap32 (counter - planned)).

(** One turn of the [while (1)] loop of [uKernelScheduler]. *)
Definition uKernelScheduler_body (s : kernel) : result kernel :=
  s <- (if negb (pTaskSchedule s =? NULL)%N && negb (_numberTasks s =? 0) then
          d <- load (mem s) (pTaskSchedule s) ;;
          s <- (if taskStatus d >? uKernel_PAUSED then
                  if due (_counterMs s) (plannedTask d) then
                    if negb (Z.land (taskStatus d) uKernel_ONETIME =? 0) then
                      s <- call (pTaskSchedule s) (taskPointer d) s ;;
                      store (pTaskSchedule s) (set_taskStatus uKernel_PAUSED) s
                    else
                      s <- store (pTaskSchedule s)
                             (set_plannedTask (wrap32 (_counterMs s + userTasksInterval d))) s ;;
                      call (pTaskSchedule s) (taskPointer d) s
                  else Ok s
                else Ok s) ;;
          if negb (pTaskSchedule s =? NULL)%N then
            d <- load (mem s) (pTaskSchedule s) ;;
            Ok (set_pTaskSchedule (pTaskNext d) s)
          else Ok s
        else Ok s) ;;
  Ok (emit Wdt s).

(** [uKernelScheduler] never returns; this is the loop cut after [turns]
    turns, with the tick counter standing still. *)
Fixpoint uKernelScheduler (turns : nat) (s : kernel) : result kernel :=
  match turns with
  | O => Ok s
  | S turns' => s' <- uKernelScheduler_body s ;; uKernelScheduler turns' s'
  end.

(** The tick source, outside this module: the timer interrupt does
    [_counterMs++]. *)
Definition tick (s : kernel) : kernel :=
  set_counterMs (wrap32 (_counterMs s + 1)) s.

(** [while (_counterMs < newTime);] polls the counter; the counter moves on
    by one tick between a poll that fails and the poll that is looked at
    next. *)
Fixpoint delay_poll (fuel : nat) (newTime : Z) (s : kernel) : result kernel :=
  match fuel with
  | O => Timeout
  | S fuel' => if _counterMs s <? newTime then delay_poll fuel' newTime (tick s) else Ok s
  end.

Definition uKernelDelayMiliseconds (fuel : nat) (delay : Z) (s : kernel) : result kernel :=
  let newTime := wrap32 (_counterMs s + delay) in
  delay_poll fuel newTime s.

(** What the busy-wait would be with the comparison of the dispatch loop,
    for comparison with the source. *)
Fixpoint delay_poll_signed (fuel : nat) (newTime : Z) (s : kernel) : result kernel :=
  match fuel with
  | O => Timeout
  | S fuel' =>
      if due (_counterMs s) newTime then Ok s else delay_poll_signed fuel' newTime (tick s)
  end.

(** ** Programs of the host *)

(** The state when [main] starts: zero-initialised globals, [pTaskFirst]
    with its initialiser [NULL], and the descriptors the host has declared. *)
Definition boot (m : gmap N uKernelTaskDescriptor) : kernel :=
  Kernel false 0 0 NULL NULL m [].

(** A zero-initialised descriptor. *)
Definition blank : uKernelTaskDescriptor := TaskDescriptor NULL 0 0 0 NULL.

Inductive action :=
| Init
| AddTask (p : ptr) (f : fnptr) (interval status : Z)
| RemoveTask (p : ptr)
| PauseTask (p : ptr)
| ResumeTask (p : ptr) (status : Z)
| ModifyTask (p : ptr) (interval status : Z)
| Tick
| Dispatch.

Definition exec (fuel : nat) (a : action) (s : kernel) : result kernel :=
  match a with
  | Init => Ok (uKernelInit s)
  | AddTask p f i st => r <- uKernelAddTask fuel p f i st s ;; Ok (snd r)
  | RemoveTask p => r <- uKernelRemoveTask fuel p s ;; Ok (snd r)
  | PauseTask p => r <- uKernelPauseTask p s ;; Ok (snd r)
  | ResumeTask p st => r <- uKernelResumeTask p st s ;; Ok (snd r)
  | ModifyTask p i st => r <- uKernelModifyTask p i st s ;; Ok (snd r)
  | Tick => Ok (tick s)
  | Dispatch => uKernelScheduler_body s
  end.

Fixpoint run (fuel : nat) (prog : list action) (s : kernel) : result kernel :=
  match prog with
  | [] => Ok s
  | a :: prog' => s' <- exec fuel a s ;; run fuel prog' s'
  end.

(** The status stored in the descriptor at [p], if there is one. *)
Definition status_of (s : kernel) (p : ptr) : option Z := taskStatus <$> mem s !! p.
Definition next_of (s : kernel) (p : ptr) : option ptr := pTaskNext <$> mem s !! p.

(** How often the task body of descriptor [p] was called. *)
Fixpoint calls (p : ptr) (t : list event) : nat :=
  match t with
  | [] => 0
  | Call q _ :: t' => (if (q =? p)%N then 1 else 0) + calls p t'
  | Wdt :: t' => calls p t'
  end.

(** ** Sample hosts *)

(** [n] zero-initialised descriptors, at the addresses [1 .. n]. *)
Definition slots (n : nat) : gmap N uKernelTaskDescriptor :=
  list_to_map (map (fun i => (N.of_nat i, blank)) (seq 1 n)).

(** Register the descriptors [1 .. n] as periodic tasks of 100 ms. *)
Definition fill (n : nat) : list action :=
  map (fun i => AddTask (N.of_nat i) 7 100 uKernel_SCHEDULED) (seq 1 n).

(** The state of a host that has registered [MAX_TASKS_NUMBER] tasks. *)
Definition full : kernel :=
  match run 300 (Init :: fill 255) (boot (slots 255)) with
  | Ok s => s
  | _ => boot ∅
  end.

(** Three tasks H = 1, B = 2, C = 3, registered in this order and all due
    at once. *)
Definition three_tasks : list action :=
  [Init;
   AddTask 1 7 100 uKernel_IMMEDIATESTART;
   AddTask 2 8 100 uKernel_IMMEDIATESTART;
   AddTask 3 9 100 uKernel_IMMEDIATESTART].

(** ** The claims of the specification that the code does not meet, as stated *)

(** C5, as the claim has it: [uKernel_ERROR] exactly when the scheduler is
    uninitialised or the descriptor is null, the stored status otherwise,
    whatever [_numberTasks] is. *)
Definition getTaskStatus_ignores_count : Prop :=
  forall (s : kernel) (p : ptr) (d : uKernelTaskDescriptor),
    _initialized s = true -> p ≠ NULL -> mem s !! p = Some d ->
    uKernelGetTaskStatus p s = Ok (taskStatus d).

(** C8, as the claim has it: every call with a null descriptor answers true
    and empties the ring. *)
Definition purge_unconditional : Prop :=
  forall (fuel : nat) (f : fnptr) (i st : Z) (s : kernel),
    exists s', uKernelAddTask fuel NULL f i st s = Ok (true, s') /\
               pTaskFirst s' = NULL /\ pTaskSchedule s' = NULL.

(** The six values of [uKernelTaskStatus]. *)
Definition six_values (st : Z) : bool :=
  (st =? uKernel_PAUSED) || (st =? uKernel_SCHEDULED) || (st =? uKernel_ONETIME) ||
  (st =? uKernel_IMMEDIATESTART) || (st =? uKernel_ONETIME_IMMEDIATESTART) ||
  (st =? uKernel_ERROR).

(** C9, as the claim has it, for the status: a status outside the six values
    of the enumeration is replaced by [uKernel_SCHEDULED], one of the six
    values is stored masked to its two low bits. *)
Definition six_value_normalisation : Prop :=
  forall (fuel : nat) (p : ptr) (f : fnptr) (i st : Z) (s s' : kernel) (d : uKernelTaskDescriptor),
    uKernelAddTask fuel p f i st s = Ok (true, s') -> p ≠ NULL -> mem s' !! p = Some d ->
    taskStatus d = if six_values st then Z.land st 0x03 else uKernel_SCHEDULED.

(** ** Well-formed rings and runs of the dispatch loop *)

(** The descriptors of [R] are in caller memory, carry a task body and link
    into [R], and [pTaskSchedule] is null or one of them. *)
Definition ring_closed (R : gset N) (s : kernel) : Prop :=
  (NULL ∉ R) /\
  (pTaskSchedule s = NULL \/ pTaskSchedule s ∈ R) /\
  forall q, q ∈ R ->
    exists d, mem s !! q = Some d /\ pTaskNext d ∈ R /\ taskPointer d ≠ NULL.

(** The actions that are no call of the host into the scheduler: a tick of
    the timer and a turn of the dispatch loop. *)
Definition passive (a : action) : Prop := a = Tick \/ a = Dispatch.

(** A turn of the dispatch loop in state [s] examines [p] and finds it due. *)
Definition visits_due (s : kernel) (p : ptr) (d : uKernelTaskDescriptor) : Prop :=
  pTaskSchedule s = p /\ _numberTasks s ≠ 0 /\ due (_counterMs s) (plannedTask d) = true.

(** What a turn of the dispatch loop from [s] to [s'] does to the descriptor
    [d] at [p]: it examines it, finds it running and due, calls its body and
    pauses or replans it; or it neither calls nor writes it. *)
Definition turn_effect (s s' : kernel) (p : ptr) (d : uKernelTaskDescriptor) : Prop :=
  (visits_due s p d /\ uKernel_PAUSED < taskStatus d /\
   trace s' = trace s ++ [Call p (taskPointer d); Wdt] /\
   mem s' !! p = Some (if Z.land (taskStatus d) uKernel_ONETIME =? 0
                       then set_plannedTask (wrap32 (_counterMs s + userTasksInterval d)) d
                       else set_taskStatus uKernel_PAUSED d))
  \/
  (~ (visits_due s p d /\ uKernel_PAUSED < taskStatus d) /\
   calls p (trace s') = calls p (trace s) /\ mem s' !! p = Some d).

(** A host with one one-shot task of 2 ms. *)
Definition one_shot_host : kernel :=
  match run 8 [Init; AddTask 1 7 2 uKernel_ONETIME] (boot (slots 3)) with
  | Ok s => s
  | _ => boot ∅
  end.

(** ** Stored statuses *)

(** The statuses the specification allows in a registered descriptor. *)
Definition persisted (st : Z) : Prop :=
  st = uKernel_PAUSED \/ st = uKernel_SCHEDULED \/ st = uKernel_ONETIME.

(** C3, as the claim has it: once a descriptor has been registered, whatever
    the host, the timer and the dispatch loop do next, its stored status is
    one of [uKernel_PAUSED], [uKernel_SCHEDULED], [uKernel_ONETIME]. *)
Definition status_always_persisted : Prop :=
  forall (fuel : nat) (s s1 s' : kernel) (p : ptr) (f : fnptr) (i st x : Z) (post : list action),
    uKernelAddTask fuel p f i st s = Ok (true, s1) -> p ≠ NULL ->
    run fuel post s1 = Ok s' -> status_of s' p = Some x -> persisted x.

(** The two-bit statuses: the values [taskStatus & 0x03] can take. *)
Definition two_bit (st : Z) : Prop := 0 <= st < 4.

(** Actions that hand no status outside the two bits to [uKernelSetTask] and
    [uKernelModifyTask]. *)
Definition tame (a : action) : Prop :=
  match a with
  | ResumeTask _ st => two_bit st
  | ModifyTask _ _ st => two_bit st
  | _ => True
  end.

(** The descriptor at [p] holds a two-bit status. *)
Definition holds_two_bit (p : ptr) (s : kernel) : Prop :=
  exists d, mem s !! p = Some d /\ two_bit (taskStatus d).

(** Field updates that keep a two-bit status. *)
Definition keeps (g : uKernelTaskDescriptor -> uKernelTaskDescriptor) : Prop :=
  forall d, two_bit (taskStatus d) -> two_bit (taskStatus (g d)).

(** ** Rings as lists *)

(** The descriptors of [l] are linked in this order: each one is in caller
    memory, has a task body, and points to the next one of [l], the last one
    to [stop]. *)
Fixpoint chain (m : gmap N uKernelTaskDescriptor) (l : list N) (stop : N) : Prop :=
  match l with
  | [] => True
  | p :: l' =>
      p ≠ NULL /\
      (exists d, m !! p = Some d /\ taskPointer d ≠ NULL /\ pTaskNext d = hd stop l') /\
      chain m l' stop
  end.

(** [l] is the ring of [s] in dispatch order from [pTaskFirst]: distinct
    descriptors, linked in a circle. *)
Definition ring (s : kernel) (l : list N) : Prop :=
  l ≠ [] /\ NoDup l /\ pTaskFirst s = hd NULL l /\ chain (mem s) l (hd NULL l).

(** Register the descriptors [ps] in this order, with one task body,
    interval and status. *)
Definition register_all (ps : list N) (f : fnptr) (i st : Z) : list action :=
  map (fun p => AddTask p f i st) ps.

(** The turns of the watchdog in a trace. *)
Fixpoint wdts (t : list event) : nat :=
  match t with
  | [] => 0
  | Wdt :: t' => S (wdts t')
  | Call _ _ :: t' => wdts t'
  end.

(** [k] ticks of the timer. *)
Fixpoint ticks (k : nat) (s : kernel) : kernel :=
  match k with
  | O => s
  | S k' => ticks k' (tick s)
  end.

(** The value of a [uint32_t] variable. *)
Definition uint32 (x : Z) : Prop := 0 <= x < 2 ^ 32.

(** The interval and the first delay a registration works with. *)
Definition registered_interval (i : Z) : Z :=
  if (i <? 1) || (i >? MAX_TASK_INTERVAL) then 50 else i.

(** The delay between a registration and the first due time:
    [(taskStatus & 0x04) ? 0 : taskInterval], on the normalised arguments. *)
Definition first_delay (i st : Z) : Z :=
  if Z.land (if st >? uKernel_ONETIME_IMMEDIATESTART then uKernel_SCHEDULED else st) 0x04 =? 0
  then registered_interval i else 0.

(** A host with one paused task. *)
Definition paused_host : kernel :=
  match run 8 [Init; AddTask 1 7 2 uKernel_PAUSED] (boot (slots 3)) with
  | Ok s => s
  | _ => boot ∅
  end.

(** The task count is a value the guards of the source allow. *)
Definition count_bounded (s : kernel) : Prop := 0 <= _numberTasks s <= MAX_TASKS_NUMBER.

(** The due time [planned] has been reached at tick [counter]: the
    difference [counter - planned], taken modulo [2^32], is one of the
    non-negative signed 32-bit values. *)
Definition reached (counter planned : Z) : Prop :=
  (counter - planned) mod 2 ^ 32 < 2 ^ 31.

(** A turn of the dispatch loop in state [s] examines the counted task [p]
    at a tick at which its due time has been reached. *)
Definition examined_when_due (s : kernel) (p : ptr) (d : uKernelTaskDescriptor) : Prop :=
  pTaskSchedule s = p /\ _numberTasks s ≠ 0 /\ reached (_counterMs s) (plannedTask d).

(** How one action may move the task count, as integers: [uKernelInit]
    sets it to 0, a registration leaves it or adds one, a removal leaves it
    or takes one off, and nothing else touches it. *)
Definition count_moves (a : action) (n n' : Z) : Prop :=
  match a with
  | Init => n' = 0
  | AddTask _ _ _ _ => n' = n \/ n' = n + 1
  | RemoveTask _ => n' = n \/ n' = n - 1
  | _ => n' = n
  end.

(** * Properties *)

(** ** Loads and stores *)

Lemma load_Ok m p d : load m p = Ok d <-> p ≠ NULL /\ m !! p = Some d.
Proof.
  unfold load. destruct (N.eqb_spec p NULL) as [->|Hp].
  - split; [discriminate | intros [[] _]; reflexivity].
  - destruct (m !! p) eqn:E; split; try discriminate.
    + intros [= ->]. auto.
    + intros [_ [= ->]]. reflexivity.
    + intros [_ ?]. discriminate.
Qed.

Lemma load_at m p d : p ≠ NULL -> m !! p = Some d -> load m p = Ok d.
Proof. intros. apply load_Ok. auto. Qed.

Lemma store_Ok p f s s' :
  store p f s = Ok s' <->
  exists d, p ≠ NULL /\ mem s !! p = Some d /\ s' = set_mem (<[p := f d]> (mem s)) s.
Proof.
  unfold store. destruct (load (mem s) p) as [d| |] eqn:E; simpl.
  - apply load_Ok in E as [Hp Hd]. split.
    + intros [= <-]. eauto.
    + intros (d' & _ & Hd' & ->). congruence.
  - split; [discriminate|]. intros (d & Hp & Hd & _).
    assert (load (mem s) p = Ok d) by (apply load_Ok; auto). congruence.
  - split; [discriminate|]. intros (d & Hp & Hd & _).
    assert (load (mem s) p = Ok d) by (apply load_Ok; auto). congruence.
Qed.

Lemma store_at p f s d :
  p ≠ NULL -> mem s !! p = Some d -> store p f s = Ok (set_mem (<[p := f d]> (mem s)) s).
Proof. intros Hp Hd. apply store_Ok. eauto. Qed.

(** The entry test shared by [uKernelSetTask], [uKernelModifyTask] and
    [uKernelGetTaskStatus]. *)
Lemma guard_false (b : bool) (n : Z) (p : N) :
  negb b || (n =? MAX_TASKS_NUMBER) || (p =? NULL)%N = false <->
  b = true /\ n ≠ MAX_TASKS_NUMBER /\ p ≠ NULL.
Proof.
  rewrite !orb_false_iff, negb_false_iff, Z.eqb_neq, N.eqb_neq. tauto.
Qed.

Lemma guard_true (b : bool) (n : Z) (p : N) :
  negb b || (n =? MAX_TASKS_NUMBER) || (p =? NULL)%N = true <->
  b = false \/ n = MAX_TASKS_NUMBER \/ p = NULL.
Proof.
  rewrite !orb_true_iff, negb_true_iff, Z.eqb_eq, N.eqb_eq. tauto.
Qed.

Lemma full_is_full :
  _initialized full = true /\ _numberTasks full = MAX_TASKS_NUMBER /\
  pTaskFirst full = 1%N /\ status_of full 1 = Some uKernel_SCHEDULED /\
  next_of full 255 = Some 1%N.
Proof. vm_compute. repeat split; reflexivity. Qed.

(** ** Capacity blocks status changes and queries *)

(** C10.  When [_numberTasks] is [MAX_TASKS_NUMBER] (255), pausing, resuming
    and modifying a task answer false and the status query answers
    [uKernel_ERROR], whatever the descriptor and whether or not the scheduler
    is initialised, and the state, descriptors included, is the one before
    the call. *)
Theorem full_blocks_status_operations (s : kernel) (p : ptr) (i st : Z) :
  _numberTasks s = MAX_TASKS_NUMBER ->
  uKernelPauseTask p s = Ok (false, s) /\
  uKernelResumeTask p st s = Ok (false, s) /\
  uKernelModifyTask p i st s = Ok (false, s) /\
  uKernelGetTaskStatus p s = Ok uKernel_ERROR.
Proof.
  intros Hn.
  assert (G : negb (_initialized s) || (_numberTasks s =? MAX_TASKS_NUMBER) || (p =? NULL)%N = true)
    by (apply guard_true; auto).
  unfold uKernelPauseTask, uKernelResumeTask, uKernelSetTask, uKernelModifyTask,
    uKernelGetTaskStatus.
  rewrite G. repeat split; reflexivity.
Qed.

Lemma full_blocks_status_operations_witness :
  _initialized full = true /\ status_of full 1 = Some uKernel_SCHEDULED /\
  uKernelPauseTask 1 full = Ok (false, full) /\
  uKernelResumeTask 1 uKernel_ONETIME full = Ok (false, full) /\
  uKernelModifyTask 1 20 uKernel_ONETIME full = Ok (false, full) /\
  uKernelGetTaskStatus 1 full = Ok uKernel_ERROR.
Proof.
  split; [vm_compute; reflexivity|]. split; [vm_compute; reflexivity|].
  apply (full_blocks_status_operations full 1 20 uKernel_ONETIME).
  vm_compute; reflexivity.
Defined.

(** ** The status query *)

(** On a full scheduler the query does not answer the stored status:
    descriptor 1 is registered with status [uKernel_SCHEDULED], the scheduler
    is initialised, and the query answers [uKernel_ERROR]. *)
Lemma getTaskStatus_full_counterexample :
  _initialized full = true /\
  status_of full 1 = Some uKernel_SCHEDULED /\
  uKernelGetTaskStatus 1 full = Ok uKernel_ERROR /\
  ~ getTaskStatus_ignores_count.
Proof.
  split; [vm_compute; reflexivity|]. split; [vm_compute; reflexivity|].
  split; [vm_compute; reflexivity|].
  intros H.
  specialize (H full 1%N (TaskDescriptor 7 100 100 uKernel_SCHEDULED 2)).
  vm_compute in H. specialize (H eq_refl ltac:(discriminate) eq_refl). discriminate.
Qed.

(** The answers of the status query, case by case: [uKernel_ERROR] when the
    scheduler is uninitialised, when [_numberTasks] is [MAX_TASKS_NUMBER],
    and when the descriptor is null; in every other case the status stored
    in the descriptor. *)
Theorem getTaskStatus_answer (s : kernel) (p : ptr) :
  (_initialized s = false \/ _numberTasks s = MAX_TASKS_NUMBER \/ p = NULL ->
   uKernelGetTaskStatus p s = Ok uKernel_ERROR) /\
  (forall d, _initialized s = true -> _numberTasks s ≠ MAX_TASKS_NUMBER -> p ≠ NULL ->
             mem s !! p = Some d ->
             uKernelGetTaskStatus p s = Ok (taskStatus d)).
Proof.
  unfold uKernelGetTaskStatus. split.
  - intros H. apply guard_true in H. rewrite H. reflexivity.
  - intros d Hi Hn Hp Hd.
    assert (G : negb (_initialized s) || (_numberTasks s =? MAX_TASKS_NUMBER) || (p =? NULL)%N
                = false) by (apply guard_false; auto).
    rewrite G.
    assert (L : load (mem s) p = Ok d) by (apply load_Ok; auto).
    rewrite L. reflexivity.
Qed.

Lemma getTaskStatus_answer_witness :
  uKernelGetTaskStatus 1 full = Ok uKernel_ERROR /\
  uKernelGetTaskStatus 2 (set_numberTasks 254 full) = Ok uKernel_SCHEDULED.
Proof.
  split.
  - apply (getTaskStatus_answer full 1). right; left. vm_compute; reflexivity.
  - apply (proj2 (getTaskStatus_answer (set_numberTasks 254 full) 2)
             (TaskDescriptor 7 100 100 uKernel_SCHEDULED 3));
      [vm_compute; reflexivity | vm_compute; discriminate | vm_compute; discriminate
      | vm_compute; reflexivity].
Defined.

(** C5.  With 255 tasks registered, the status query on the registered
    descriptor 1, the head of the ring with stored status
    [uKernel_SCHEDULED], on the initialised scheduler, answers
    [uKernel_ERROR], the value the header documents as "task not found".
    Once one other task has been removed the same query answers the stored
    status. *)
Theorem getTaskStatus_error_on_registered_task :
  _initialized full = true /\ _numberTasks full = MAX_TASKS_NUMBER /\
  pTaskFirst full = 1%N /\ status_of full 1 = Some uKernel_SCHEDULED /\
  uKernelGetTaskStatus 1 full = Ok uKernel_ERROR /\
  exists s, uKernelRemoveTask 300 255 full = Ok (true, s) /\
            status_of s 1 = Some uKernel_SCHEDULED /\
            uKernelGetTaskStatus 1 s = Ok uKernel_SCHEDULED.
Proof.
  do 5 (split; [vm_compute; reflexivity|]).
  eexists. split; [vm_compute; reflexivity|]. split; vm_compute; reflexivity.
Qed.

(** ** Purging the ring through [uKernelAddTask] *)

(** C8 fails behind the entry test of [uKernelAddTask]: with a null task
    body the call answers false and the ring keeps its task; before
    [uKernelInit] it answers false as well. *)
Lemma purge_counterexample :
  (exists s, run 8 [Init; AddTask 1 7 100 uKernel_SCHEDULED] (boot (slots 3)) = Ok s /\
             uKernelAddTask 8 NULL NULL 100 uKernel_SCHEDULED s = Ok (false, s) /\
             pTaskFirst s = 1%N /\ pTaskSchedule s = 1%N) /\
  uKernelAddTask 8 NULL 7 100 uKernel_SCHEDULED (boot (slots 3)) = Ok (false, boot (slots 3)) /\
  ~ purge_unconditional.
Proof.
  split; [|split].
  - eexists. split; [vm_compute; reflexivity|]. vm_compute. repeat split; reflexivity.
  - vm_compute; reflexivity.
  - intros H. destruct (H 8%nat 7%N 100 uKernel_SCHEDULED (boot (slots 3))) as (s' & E & _).
    vm_compute in E. discriminate.
Qed.

(** C8, amended.  A call of [uKernelAddTask] with a null descriptor that
    passes the entry test (scheduler initialised, [_numberTasks] not
    [MAX_TASKS_NUMBER], task body not null) answers true and sets
    [pTaskFirst] and [pTaskSchedule] to null; [_numberTasks], the tick
    counter, the initialised flag, every descriptor and the trace are as
    before.  A call that fails the entry test answers false and changes
    nothing. *)
Theorem purge_behind_guard (fuel : nat) (f : fnptr) (i st : Z) (s : kernel) :
  (_initialized s = true -> _numberTasks s ≠ MAX_TASKS_NUMBER -> f ≠ NULL ->
   uKernelAddTask fuel NULL f i st s =
     Ok (true, Kernel (_initialized s) (_counterMs s) (_numberTasks s) NULL NULL
                      (mem s) (trace s))) /\
  (_initialized s = false \/ _numberTasks s = MAX_TASKS_NUMBER \/ f = NULL ->
   uKernelAddTask fuel NULL f i st s = Ok (false, s)).
Proof.
  unfold uKernelAddTask. split.
  - intros Hi Hn Hf.
    assert (G : negb (_initialized s) || (_numberTasks s =? MAX_TASKS_NUMBER) || (f =? NULL)%N
                = false) by (apply guard_false; auto).
    rewrite G. reflexivity.
  - intros H. apply guard_true in H. rewrite H. reflexivity.
Qed.

Lemma purge_behind_guard_witness :
  exists s,
    run 8 [Init; AddTask 1 7 100 uKernel_SCHEDULED; AddTask 2 8 100 uKernel_SCHEDULED]
      (boot (slots 3)) = Ok s /\
    pTaskFirst s = 1%N /\ pTaskSchedule s = 1%N /\ _numberTasks s = 2 /\
    uKernelAddTask 8 NULL 7 100 uKernel_SCHEDULED s =
      Ok (true, Kernel true 0 2 NULL NULL (mem s) []) /\
    uKernelAddTask 8 NULL NULL 100 uKernel_SCHEDULED s = Ok (false, s).
Proof.
  eexists. split; [vm_compute; reflexivity|].
  split; [reflexivity|]. split; [reflexivity|]. split; [reflexivity|]. split.
  - refine (proj1 (purge_behind_guard 8 7 100 uKernel_SCHEDULED _) _ _ _).
    + reflexivity.
    + vm_compute; discriminate.
    + vm_compute; discriminate.
  - refine (proj2 (purge_behind_guard 8 NULL 100 uKernel_SCHEDULED _) _).
    right; right; reflexivity.
Defined.

(** ** Normalisation of the arguments of a registration *)

Lemma bind_Ok {A B} (r : result A) (k : A -> result B) (b : B) :
  bind r k = Ok b <-> exists a, r = Ok a /\ k a = Ok b.
Proof.
  destruct r; simpl; split; try discriminate; eauto.
  - intros (a' & [= <-] & H). exact H.
  - intros (a' & H & _). discriminate.
  - intros (a' & H & _). discriminate.
Qed.

(** A store changes caller memory at its address and nothing else. *)
Lemma store_frame p f s s' :
  store p f s = Ok s' ->
  _initialized s' = _initialized s /\ _counterMs s' = _counterMs s /\
  _numberTasks s' = _numberTasks s /\ pTaskSchedule s' = pTaskSchedule s /\
  pTaskFirst s' = pTaskFirst s /\ trace s' = trace s /\
  (exists d, mem s !! p = Some d /\ mem s' !! p = Some (f d)) /\
  (forall q, q ≠ p -> mem s' !! q = mem s !! q).
Proof.
  intros H. apply store_Ok in H as (d & Hp & Hd & ->). simpl.
  repeat split; try reflexivity.
  - exists d. split; [exact Hd | apply lookup_insert_eq].
  - intros q Hq. apply lookup_insert_ne. congruence.
Qed.

(** What a successful registration leaves in the descriptor. *)
Lemma uKernelAddTask_stores fuel p f i st s s' :
  uKernelAddTask fuel p f i st s = Ok (true, s') -> p ≠ NULL ->
  exists d n,
    mem s' !! p = Some (TaskDescriptor f
      (if (i <? 1) || (i >? MAX_TASK_INTERVAL) then 50 else i)
      d
      (Z.land (if st >? uKernel_ONETIME_IMMEDIATESTART then uKernel_SCHEDULED else st) 0x03)
      n).
Proof.
  unfold uKernelAddTask. intros H Hp.
  destruct (negb (_initialized s) || (_numberTasks s =? MAX_TASKS_NUMBER) || (f =? NULL)%N);
    [discriminate|].
  apply N.eqb_neq in Hp. rewrite Hp in H. simpl negb in H. cbv iota in H.
  apply bind_Ok in H as (s1 & _ & H).
  apply bind_Ok in H as (s2 & H2 & H).
  apply bind_Ok in H as (s3 & H3 & H).
  apply bind_Ok in H as (s4 & H4 & H).
  apply bind_Ok in H as (s5 & H5 & H).
  injection H as <-.
  apply store_frame in H2 as (_ & _ & _ & _ & _ & _ & (d2 & _ & E2) & _).
  apply store_frame in H3 as (_ & _ & _ & _ & _ & _ & (d3 & E3 & E3') & _).
  apply store_frame in H4 as (_ & _ & _ & _ & _ & _ & (d4 & E4 & E4') & _).
  apply store_frame in H5 as (_ & _ & _ & _ & _ & _ & (d5 & E5 & E5') & _).
  simpl. rewrite E5'.
  assert (d5 = set_taskPointer f d4) by congruence.
  assert (d4 = set_userTasksInterval
                 (if (i <? 1) || (i >? MAX_TASK_INTERVAL) then 50 else i) d3) by congruence.
  subst d5 d4. rewrite E2 in E3. injection E3 as <-.
  eexists _, _. reflexivity.
Qed.

(** C9 fails at both ends of the status check, which is [taskStatus > 7]:
    [uKernel_ERROR] is one of the six values and is stored as
    [uKernel_SCHEDULED], not as [0xFF & 0x03]; the value 4 is none of the six
    and is stored as [uKernel_PAUSED], not as [uKernel_SCHEDULED]. *)
Lemma six_value_normalisation_counterexample :
  (exists s, run 8 [Init; AddTask 1 7 100 uKernel_ERROR] (boot (slots 3)) = Ok s /\
             status_of s 1 = Some uKernel_SCHEDULED /\
             six_values uKernel_ERROR = true /\ Z.land uKernel_ERROR 0x03 = 3) /\
  (exists s, run 8 [Init; AddTask 1 7 100 4] (boot (slots 3)) = Ok s /\
             status_of s 1 = Some uKernel_PAUSED /\ six_values 4 = false) /\
  ~ six_value_normalisation.
Proof.
  split; [|split].
  - eexists. split; [vm_compute; reflexivity|]. vm_compute. repeat split; reflexivity.
  - eexists. split; [vm_compute; reflexivity|]. vm_compute. repeat split; reflexivity.
  - intros H.
    destruct (uKernelAddTask 8 1 7 100 uKernel_ERROR (uKernelInit (boot (slots 3))))
      as [[b s']| |] eqn:E; [|vm_compute in E; discriminate..].
    assert (Hb : b = true) by (vm_compute in E; congruence). subst b.
    specialize (H _ _ _ _ _ _ _ (TaskDescriptor 7 100 100 uKernel_SCHEDULED 1) E).
    vm_compute in E. injection E as <-.
    vm_compute in H. specialize (H ltac:(discriminate) eq_refl). discriminate.
Qed.

(** C9, amended.  After a successful registration the descriptor holds: as
    interval, the argument when it lies in [1, MAX_TASK_INTERVAL] and 50
    otherwise; as status, [uKernel_SCHEDULED] when the argument is greater
    than [uKernel_ONETIME_IMMEDIATESTART] (7; this takes in [uKernel_ERROR])
    and the two low bits of the argument when it is at most 7, whether or
    not it is a value of the enumeration. *)
Theorem registration_normalises (fuel : nat) (p : ptr) (f : fnptr) (i st : Z) (s s' : kernel) :
  uKernelAddTask fuel p f i st s = Ok (true, s') -> p ≠ NULL ->
  exists d, mem s' !! p = Some d /\
    (1 <= i <= MAX_TASK_INTERVAL -> userTasksInterval d = i) /\
    (i < 1 \/ MAX_TASK_INTERVAL < i -> userTasksInterval d = 50) /\
    (st <= uKernel_ONETIME_IMMEDIATESTART -> taskStatus d = Z.land st 0x03) /\
    (uKernel_ONETIME_IMMEDIATESTART < st -> taskStatus d = uKernel_SCHEDULED).
Proof.
  intros H Hp. destruct (uKernelAddTask_stores _ _ _ _ _ _ _ H Hp) as (t & n & E).
  eexists. split; [exact E|]. simpl.
  unfold MAX_TASK_INTERVAL, uKernel_ONETIME_IMMEDIATESTART, uKernel_SCHEDULED.
  repeat split; intros Hc.
  - destruct (Z.ltb_spec i 1), (Z.gtb_spec i 3600000); simpl; lia.
  - destruct (Z.ltb_spec i 1), (Z.gtb_spec i 3600000); simpl; lia.
  - destruct (Z.gtb_spec st 7); [lia | reflexivity].
  - destruct (Z.gtb_spec st 7); [reflexivity | lia].
Qed.

Lemma registration_normalises_witness :
  exists s' d,
    uKernelAddTask 8 1 7 0 uKernel_ERROR (uKernelInit (boot (slots 3))) = Ok (true, s') /\
    mem s' !! 1%N = Some d /\ userTasksInterval d = 50 /\ taskStatus d = uKernel_SCHEDULED.
Proof.
  destruct (uKernelAddTask 8 1 7 0 uKernel_ERROR (uKernelInit (boot (slots 3))))
    as [[b s']| |] eqn:E; [|vm_compute in E; discriminate..].
  assert (Hb : b = true) by (vm_compute in E; congruence). subst b.
  destruct (registration_normalises 8 1 7 0 uKernel_ERROR _ s' E ltac:(discriminate))
    as (d & Hd & _ & Hi & _ & Hs).
  exists s', d. split; [reflexivity|]. split; [exact Hd|].
  split; [apply Hi; left; lia | apply Hs; vm_compute; reflexivity].
Defined.

(** ** Initialisation *)

(** What [uKernelInit] assigns, and what it leaves alone. *)
Lemma uKernelInit_fields s :
  _initialized (uKernelInit s) = true /\ _counterMs (uKernelInit s) = 0 /\
  _numberTasks (uKernelInit s) = 0 /\ pTaskSchedule (uKernelInit s) = NULL /\
  pTaskFirst (uKernelInit s) = pTaskFirst s /\ mem (uKernelInit s) = mem s.
Proof. repeat split; reflexivity. Qed.

(** C1.  [uKernelInit] sets the flag, the tick counter, the task count and
    [pTaskSchedule], and does not touch [pTaskFirst].  A second
    [uKernelInit], after descriptor 1 was registered, leaves [pTaskFirst] on
    descriptor 1 with [pTaskSchedule] null, and the registration that follows
    takes the branch for a ring with members and reads through the null
    [pTaskSchedule]. *)
Theorem reinit_keeps_pTaskFirst :
  (forall s, pTaskFirst (uKernelInit s) = pTaskFirst s) /\
  exists s,
    run 8 [Init; AddTask 1 7 100 uKernel_SCHEDULED; Init] (boot (slots 3)) = Ok s /\
    _initialized s = true /\ _counterMs s = 0 /\ _numberTasks s = 0 /\
    pTaskSchedule s = NULL /\ pTaskFirst s = 1%N /\
    uKernelAddTask 8 2 8 100 uKernel_SCHEDULED s = Fault.
Proof.
  split; [reflexivity|].
  eexists. split; [vm_compute; reflexivity|].
  vm_compute. repeat split; reflexivity.
Qed.

(** ** Removal of the head *)

(** Where the predecessor walk stops. *)
Lemma walk_Ok fuel m : forall w target c,
  walk fuel m w target = Ok c ->
  exists d, c ≠ NULL /\ m !! c = Some d /\ pTaskNext d = target.
Proof.
  induction fuel as [|fuel IH]; intros w target c H; simpl in H; [discriminate|].
  apply bind_Ok in H as (d & Hd & H). apply load_Ok in Hd as (Hw & Hd).
  destruct (N.eqb_spec (pTaskNext d) target) as [Heq|Hne].
  - injection H as <-. eauto.
  - eapply IH. exact H.
Qed.

(** Removing the head writes no descriptor: the call only moves
    [pTaskFirst], so the predecessor of the head keeps its link. *)
Lemma uKernelRemoveTask_head_writes_nothing fuel s b s' :
  uKernelRemoveTask fuel (pTaskFirst s) s = Ok (b, s') -> mem s' = mem s.
Proof.
  unfold uKernelRemoveTask. intros H.
  destruct (negb (_initialized s) || (_numberTasks s =? 0) || (pTaskFirst s =? NULL)%N).
  - injection H as _ <-. reflexivity.
  - apply bind_Ok in H as (c & Hw & H). apply walk_Ok in Hw as (d & Hc & Hd & Hn).
    rewrite (load_at _ _ _ Hc Hd) in H. simpl in H.
    rewrite Hn, N.eqb_refl in H.
    apply bind_Ok in H as (s1 & H1 & H). apply bind_Ok in H1 as (dn & _ & H1).
    injection H1 as <-. injection H as _ <-. reflexivity.
Qed.

(** C2.  With H = 1, B = 2, C = 3 registered in this order,
    [uKernelRemoveTask] of H answers true, counts two tasks and moves
    [pTaskFirst] to B, and writes no descriptor: C still points to H, H still
    points to B, and the next three turns of the dispatch loop run the task
    bodies of H, B and C. *)
Theorem remove_head_keeps_link_to_head :
  exists s s' s'',
    run 8 three_tasks (boot (slots 3)) = Ok s /\
    pTaskFirst s = 1%N /\ next_of s 1 = Some 2%N /\ next_of s 2 = Some 3%N /\
    next_of s 3 = Some 1%N /\ _numberTasks s = 3 /\
    uKernelRemoveTask 8 1 s = Ok (true, s') /\
    _numberTasks s' = 2 /\ pTaskFirst s' = 2%N /\ mem s' = mem s /\
    next_of s' 2 = Some 3%N /\ next_of s' 3 = Some 1%N /\
    run 8 [Dispatch; Dispatch; Dispatch] s' = Ok s'' /\
    trace s'' = [Call 1 7; Wdt; Call 2 8; Wdt; Call 3 9; Wdt].
Proof.
  eexists _, _, _.
  split; [vm_compute; reflexivity|].
  do 5 (split; [vm_compute; reflexivity|]).
  split; [vm_compute; reflexivity|].
  do 5 (split; [vm_compute; reflexivity|]).
  split; vm_compute; reflexivity.
Qed.

(** ** The blocking delay *)

Lemma wrap32_small x : 0 <= x < 2 ^ 32 -> wrap32 x = x.
Proof. intros H. unfold wrap32. apply Z.mod_small. exact H. Qed.

(** Without overflow of [_counterMs + delay] the delay lasts [delay] ticks. *)
Lemma delay_poll_reaches (n : nat) : forall (fuel : nat) (s : kernel) (newTime : Z),
  0 <= _counterMs s -> newTime = _counterMs s + Z.of_nat n -> newTime < 2 ^ 32 ->
  (n < fuel)%nat ->
  delay_poll fuel newTime s = Ok (set_counterMs newTime s).
Proof.
  induction n as [|n IH]; intros fuel s newTime H0 Hn Hlt Hf.
  - destruct fuel as [|fuel]; [lia|]. simpl.
    destruct (Z.ltb_spec (_counterMs s) newTime); [lia|].
    replace newTime with (_counterMs s) by lia. destruct s; reflexivity.
  - destruct fuel as [|fuel]; [lia|]. simpl.
    destruct (Z.ltb_spec (_counterMs s) newTime); [|lia].
    rewrite (IH fuel (tick s) newTime).
    + destruct s; reflexivity.
    + unfold tick; simpl. rewrite wrap32_small; lia.
    + unfold tick; simpl. rewrite wrap32_small; lia.
    + exact Hlt.
    + lia.
Qed.

Lemma uKernelDelayMiliseconds_no_overflow (fuel : nat) (delay : Z) (s : kernel) :
  0 <= _counterMs s -> 0 <= delay -> _counterMs s + delay < 2 ^ 32 ->
  (Z.to_nat delay < fuel)%nat ->
  uKernelDelayMiliseconds fuel delay s = Ok (set_counterMs (_counterMs s + delay) s).
Proof.
  intros H0 Hd Hlt Hf. unfold uKernelDelayMiliseconds.
  rewrite wrap32_small by lia.
  apply (delay_poll_reaches (Z.to_nat delay)); lia.
Qed.

(** C4.  [uKernelDelayMiliseconds] compares [_counterMs < newTime] as
    unsigned numbers.  Five ticks before the counter wraps, a delay of 10 ms
    computes [newTime = 5] and returns at the first poll, with no tick
    elapsed; the comparison of the dispatch loop would wait the ten ticks. *)
Theorem delay_unsigned_compare_cut_short :
  let s := set_counterMs (2 ^ 32 - 5) (uKernelInit (boot ∅)) in
  wrap32 (_counterMs s + 10) = 5 /\
  uKernelDelayMiliseconds 100 10 s = Ok s /\
  delay_poll_signed 100 (wrap32 (_counterMs s + 10)) s = Ok (set_counterMs 5 s).
Proof. vm_compute. repeat split; reflexivity. Qed.

(** ** The due test of the dispatch loop *)

(** [to_int32 (wrap32 (a - b))] is the difference [a - b] read as a signed
    32-bit quantity: the one number in [-2^31, 2^31) congruent to it. *)
Lemma signed_difference (a b : Z) :
  - 2 ^ 31 <= to_int32 (wrap32 (a - b)) < 2 ^ 31 /\
  (to_int32 (wrap32 (a - b)) - (a - b)) mod 2 ^ 32 = 0.
Proof.
  unfold to_int32, wrap32.
  pose proof (Z.mod_pos_bound (a - b) (2 ^ 32) ltac:(lia)) as Hb.
  pose proof (Z.div_mod (a - b) (2 ^ 32) ltac:(lia)) as Hdm.
  destruct (Z.ltb_spec ((a - b) mod 2 ^ 32) (2 ^ 31)); (split; [lia|]).
  - replace ((a - b) mod 2 ^ 32 - (a - b)) with (- ((a - b) / 2 ^ 32) * 2 ^ 32) by lia.
    apply Z_mod_mult.
  - replace ((a - b) mod 2 ^ 32 - 2 ^ 32 - (a - b))
      with ((- ((a - b) / 2 ^ 32) - 1) * 2 ^ 32) by lia.
    apply Z_mod_mult.
Qed.

Lemma call_Ok p f s : f ≠ NULL -> call p f s = Ok (emit (Call p f) s).
Proof. intros Hf. unfold call. apply N.eqb_neq in Hf. rewrite Hf. reflexivity. Qed.

(** One turn of the loop on the descriptor under [pTaskSchedule]. *)
Lemma uKernelScheduler_body_at s d :
  pTaskSchedule s ≠ NULL -> _numberTasks s ≠ 0 ->
  mem s !! pTaskSchedule s = Some d -> taskPointer d ≠ NULL ->
  uKernelScheduler_body s =
    if (taskStatus d >? uKernel_PAUSED) && due (_counterMs s) (plannedTask d) then
      if Z.land (taskStatus d) uKernel_ONETIME =? 0 then
        Ok (emit Wdt (set_pTaskSchedule (pTaskNext d)
              (emit (Call (pTaskSchedule s) (taskPointer d))
                 (set_mem (<[pTaskSchedule s :=
                               set_plannedTask (wrap32 (_counterMs s + userTasksInterval d)) d]>
                             (mem s)) s))))
      else
        Ok (emit Wdt (set_pTaskSchedule (pTaskNext d)
              (set_mem (<[pTaskSchedule s := set_taskStatus uKernel_PAUSED d]> (mem s))
                 (emit (Call (pTaskSchedule s) (taskPointer d)) s))))
    else Ok (emit Wdt (set_pTaskSchedule (pTaskNext d) s)).
Proof.
  intros Hp Hn Hd Hf. unfold uKernelScheduler_body.
  assert (Ep : (pTaskSchedule s =? NULL)%N = false) by (apply N.eqb_neq; exact Hp).
  assert (En : (_numberTasks s =? 0) = false) by (apply Z.eqb_neq; exact Hn).
  rewrite Ep, En. simpl negb. simpl andb. cbv iota.
  rewrite (load_at _ _ _ Hp Hd). simpl bind.
  destruct (taskStatus d >? uKernel_PAUSED); simpl andb; cbv iota.
  - destruct (due (_counterMs s) (plannedTask d)).
    + destruct (Z.land (taskStatus d) uKernel_ONETIME =? 0); simpl negb; cbv iota.
      * rewrite (store_at _ _ _ _ Hp Hd). simpl bind.
        rewrite call_Ok by exact Hf. simpl. rewrite Ep. simpl.
        unfold load. simpl. rewrite Ep. rewrite lookup_insert_eq. reflexivity.
      * rewrite call_Ok by exact Hf. simpl bind.
        rewrite (store_at _ _ _ d) by (simpl; auto). simpl. rewrite Ep. simpl.
        unfold load. simpl. rewrite Ep. rewrite lookup_insert_eq. reflexivity.
    + simpl. rewrite Ep. simpl. rewrite (load_at _ _ _ Hp Hd). reflexivity.
  - simpl. rewrite Ep. simpl. rewrite (load_at _ _ _ Hp Hd). reflexivity.
Qed.

(** A turn of the loop with nothing to examine. *)
Lemma uKernelScheduler_body_idle s :
  pTaskSchedule s = NULL \/ _numberTasks s = 0 -> uKernelScheduler_body s = Ok (emit Wdt s).
Proof.
  intros H. unfold uKernelScheduler_body.
  assert (E : negb (pTaskSchedule s =? NULL)%N && negb (_numberTasks s =? 0) = false).
  { apply andb_false_iff. rewrite !negb_false_iff, N.eqb_eq, Z.eqb_eq. exact H. }
  rewrite E. reflexivity.
Qed.

(** C6.  A turn of the dispatch loop that examines a descriptor whose status
    is not [uKernel_PAUSED] calls the task body exactly when
    [_counterMs - plannedTask], read as a signed 32-bit quantity, is not
    negative.  So a task planned for [0xFFFFFFFF - 5] is due when the counter
    has wrapped round to 3. *)
Theorem due_is_signed_difference (s : kernel) (d : uKernelTaskDescriptor) :
  pTaskSchedule s ≠ NULL -> _numberTasks s ≠ 0 ->
  mem s !! pTaskSchedule s = Some d ->
  0 <= taskStatus d -> taskStatus d ≠ uKernel_PAUSED -> taskPointer d ≠ NULL ->
  let diff := to_int32 (wrap32 (_counterMs s - plannedTask d)) in
  (- 2 ^ 31 <= diff < 2 ^ 31 /\ (diff - (_counterMs s - plannedTask d)) mod 2 ^ 32 = 0) /\
  exists s', uKernelScheduler_body s = Ok s' /\
    (0 <= diff -> trace s' = trace s ++ [Call (pTaskSchedule s) (taskPointer d); Wdt]) /\
    (diff < 0 -> trace s' = trace s ++ [Wdt] /\ mem s' = mem s) /\
    (plannedTask d = 0xFFFFFFFF - 5 -> _counterMs s = 3 ->
     trace s' = trace s ++ [Call (pTaskSchedule s) (taskPointer d); Wdt]).
Proof.
  intros Hp Hn Hd H0 Hst Hf diff.
  split; [apply signed_difference|].
  assert (Hlt : uKernel_PAUSED < taskStatus d) by (unfold uKernel_PAUSED in *; lia).
  rewrite (uKernelScheduler_body_at s d Hp Hn Hd Hf).
  apply Z.gtb_lt in Hlt. rewrite Hlt. simpl andb.
  unfold due. fold diff.
  assert (Hex : plannedTask d = 0xFFFFFFFF - 5 -> _counterMs s = 3 -> 0 <= diff).
  { intros E1 E2. unfold diff. rewrite E1, E2. vm_compute. discriminate. }
  destruct (Z.leb_spec 0 diff) as [Hge|Hneg].
  - destruct (Z.land (taskStatus d) uKernel_ONETIME =? 0); eexists; (split; [reflexivity|]);
      simpl; rewrite <- app_assoc; simpl; (split; [|split]); auto; lia.
  - eexists. split; [reflexivity|]. simpl. split; [|split]; auto; lia.
Qed.

Lemma due_is_signed_difference_witness :
  let s := Kernel true 3 1 1 1 {[ 1%N := TaskDescriptor 7 100 (0xFFFFFFFF - 5) uKernel_SCHEDULED 1 ]} [] in
  to_int32 (wrap32 (3 - (0xFFFFFFFF - 5))) = 9 /\
  exists s', uKernelScheduler_body s = Ok s' /\ trace s' = [Call 1 7; Wdt].
Proof.
  intros s. split; [reflexivity|].
  destruct (due_is_signed_difference s (TaskDescriptor 7 100 (0xFFFFFFFF - 5) uKernel_SCHEDULED 1))
    as (_ & s' & E & _ & _ & H);
    [vm_compute; discriminate | vm_compute; discriminate | vm_compute; reflexivity
    | vm_compute; discriminate | vm_compute; discriminate | vm_compute; discriminate |].
  exists s'. split; [exact E|]. apply H; reflexivity.
Defined.

(** ** One-shot tasks *)

Lemma calls_app p t1 t2 : calls p (t1 ++ t2) = (calls p t1 + calls p t2)%nat.
Proof.
  induction t1 as [|[q f|] t1 IH]; simpl; [reflexivity| |exact IH].
  rewrite IH. lia.
Qed.

Lemma calls_call_same p f : calls p [Call p f; Wdt] = 1%nat.
Proof. simpl. rewrite N.eqb_refl. reflexivity. Qed.

Lemma calls_call_other p q f : q ≠ p -> calls p [Call q f; Wdt] = 0%nat.
Proof. intros H. simpl. apply N.eqb_neq in H. rewrite H. reflexivity. Qed.

Lemma run_app fuel pre post s :
  run fuel (pre ++ post) s = (s1 <- run fuel pre s ;; run fuel post s1).
Proof.
  revert s. induction pre as [|a pre IH]; intros s; simpl; [reflexivity|].
  destruct (exec fuel a s); simpl; auto.
Qed.

(** The dispatch loop is the program that does nothing but [Dispatch]. *)
Lemma uKernelScheduler_run fuel turns : forall s,
  uKernelScheduler turns s = run fuel (replicate turns Dispatch) s.
Proof.
  induction turns as [|turns IH]; intros s; simpl; [reflexivity|].
  destruct (uKernelScheduler_body s); simpl; auto.
Qed.

Lemma ring_closed_tick R s : ring_closed R s -> ring_closed R (tick s).
Proof. intros H. exact H. Qed.

(** Rewriting the descriptor under [pTaskSchedule] without touching its link
    and its task body, and moving on to its successor, keeps the ring. *)
Lemma ring_closed_advance R s d (g : uKernelTaskDescriptor -> uKernelTaskDescriptor) s' :
  ring_closed R s -> pTaskSchedule s ∈ R -> mem s !! pTaskSchedule s = Some d ->
  pTaskNext (g d) = pTaskNext d -> taskPointer (g d) = taskPointer d ->
  mem s' = <[pTaskSchedule s := g d]> (mem s) -> pTaskSchedule s' = pTaskNext d ->
  ring_closed R s'.
Proof.
  intros (H0 & Hc & Hall) Hin Hd Hn Hf Hm Hp. split; [exact H0|]. split.
  - right. rewrite Hp. destruct (Hall _ Hin) as (d' & Hd' & Hn' & _).
    rewrite Hd in Hd'. injection Hd' as <-. exact Hn'.
  - intros q Hq. rewrite Hm. destruct (decide (q = pTaskSchedule s)) as [->|Hne].
    + rewrite lookup_insert_eq. exists (g d). split; [reflexivity|].
      destruct (Hall _ Hin) as (d' & Hd' & Hn' & Hf'). rewrite Hn, Hf.
      rewrite Hd in Hd'. injection Hd' as <-. auto.
    + rewrite lookup_insert_ne by congruence. apply Hall. exact Hq.
Qed.

Lemma insert_same_id (m : gmap N uKernelTaskDescriptor) p d :
  m !! p = Some d -> m = <[p := d]> m.
Proof. intros H. symmetry. apply insert_id. exact H. Qed.

(** The effect of one turn of the dispatch loop on a descriptor [p] of a
    well-formed ring: either the turn examines [p], finds it running and due
    and calls its body, or it leaves [p] as it is and does not call it. *)
Lemma uKernelScheduler_body_on R s p d :
  ring_closed R s -> p ∈ R -> mem s !! p = Some d ->
  exists s', uKernelScheduler_body s = Ok s' /\ ring_closed R s' /\
    turn_effect s s' p d.
Proof.
  intros HR Hin Hd. pose proof HR as (H0 & Hc & Hall). unfold turn_effect.
  assert (Hidle : pTaskSchedule s = NULL \/ _numberTasks s = 0 ->
    exists s', uKernelScheduler_body s = Ok s' /\ ring_closed R s' /\ turn_effect s s' p d).
  { unfold turn_effect.
    intros Hi. exists (emit Wdt s). split; [apply uKernelScheduler_body_idle; exact Hi|].
    split; [exact HR|]. right. split; [|split].
    - intros ((Hv1 & Hv2 & _) & _). destruct Hi as [Hi|Hi]; [|contradiction].
      apply H0. rewrite <- Hi, Hv1. exact Hin.
    - simpl. rewrite calls_app. simpl. lia.
    - exact Hd. }
  destruct (decide (_numberTasks s = 0)) as [Hz|Hnz]; [apply Hidle; auto|].
  destruct Hc as [Hnull|Hcin]; [apply Hidle; auto|].
  assert (Hq : pTaskSchedule s ≠ NULL) by (intros E; apply H0; rewrite <- E; exact Hcin).
  destruct (Hall _ Hcin) as (dq & Hdq & Hnq & Hfq).
  rewrite (uKernelScheduler_body_at s dq Hq Hnz Hdq Hfq).
  destruct (decide (pTaskSchedule s = p)) as [Hsame|Hdiff].
  - assert (dq = d) by congruence. subst dq.
    destruct (Z.gtb_spec (taskStatus d) uKernel_PAUSED) as [Hrun|Hpau]; simpl andb.
    + destruct (due (_counterMs s) (plannedTask d)) eqn:Hdue.
      * destruct (Z.land (taskStatus d) uKernel_ONETIME =? 0); eexists; (split; [reflexivity|]);
          (split; [eapply ring_closed_advance; eauto; reflexivity|]); left;
          (split; [split; [|split]; auto|]); (split; [exact Hrun|]); simpl;
          rewrite <- app_assoc, Hsame; simpl; (split; [reflexivity|]);
          apply lookup_insert_eq.
      * eexists. split; [reflexivity|].
        split; [eapply (ring_closed_advance R s d (fun x => x)); eauto; simpl;
                apply insert_same_id; exact Hdq|].
        right. split; [|split].
        -- intros ((_ & _ & Hv) & _). congruence.
        -- simpl. rewrite calls_app. simpl. lia.
        -- exact Hd.
    + eexists. split; [reflexivity|].
      split; [eapply (ring_closed_advance R s d (fun x => x)); eauto; simpl;
              apply insert_same_id; exact Hdq|].
      right. split; [|split].
      * intros (_ & Hv). lia.
      * simpl. rewrite calls_app. simpl. lia.
      * exact Hd.
  - assert (Hnv : ~ (visits_due s p d /\ uKernel_PAUSED < taskStatus d))
      by (intros ((Hv & _) & _); contradiction).
    destruct ((taskStatus dq >? uKernel_PAUSED) && due (_counterMs s) (plannedTask dq)).
    + destruct (Z.land (taskStatus dq) uKernel_ONETIME =? 0); eexists; (split; [reflexivity|]);
        (split; [eapply ring_closed_advance; eauto; reflexivity|]); right;
        (split; [exact Hnv|]); simpl; rewrite <- app_assoc, calls_app; simpl app;
        rewrite calls_call_other by exact Hdiff;
        (split; [lia|]); rewrite lookup_insert_ne by exact Hdiff; exact Hd.
    + eexists. split; [reflexivity|].
      split; [eapply (ring_closed_advance R s dq (fun x => x)); eauto; simpl;
              apply insert_same_id; exact Hdq|].
      right. split; [exact Hnv|]. simpl. rewrite calls_app. simpl. split; [lia | exact Hd].
Qed.

Lemma Forall_passive_cons a prog :
  Forall passive (a :: prog) -> (a = Tick \/ a = Dispatch) /\ Forall passive prog.
Proof. intros H. inversion H; subst. auto. Qed.

(** A paused task stays paused and is not called, whatever the timer and the
    dispatch loop do. *)
Lemma paused_stays_paused fuel R p d prog : forall s,
  ring_closed R s -> p ∈ R -> mem s !! p = Some d -> taskStatus d = uKernel_PAUSED ->
  Forall passive prog ->
  exists s', run fuel prog s = Ok s' /\ ring_closed R s' /\
             mem s' !! p = Some d /\ calls p (trace s') = calls p (trace s).
Proof.
  induction prog as [|a prog IH]; intros s HR Hin Hd Hst Hpas.
  - exists s. simpl. auto.
  - apply Forall_passive_cons in Hpas as ([->| ->] & Hpas); simpl.
    + destruct (IH (tick s) (ring_closed_tick _ _ HR) Hin Hd Hst Hpas) as (s' & E & H).
      exists s'. split; [exact E | exact H].
    + destruct (uKernelScheduler_body_on R s p d HR Hin Hd)
        as (s1 & E1 & HR1 & [(_ & Hrun & _)|(_ & Hc & Hd1)]).
      * unfold uKernel_PAUSED in *. lia.
      * rewrite E1. simpl.
        destruct (IH s1 HR1 Hin Hd1 Hst Hpas) as (s' & E & HR' & Hd' & Hc').
        exists s'. split; [exact E|]. split; [exact HR'|]. split; [exact Hd'|].
        rewrite Hc'. exact Hc.
Qed.

(** A one-shot task under the timer and the dispatch loop. *)
Lemma onetime_run fuel R p d prog : forall s,
  ring_closed R s -> p ∈ R -> mem s !! p = Some d -> taskStatus d = uKernel_ONETIME ->
  Forall passive prog ->
  exists s', run fuel prog s = Ok s' /\
    ((calls p (trace s') = calls p (trace s) /\ mem s' !! p = Some d) \/
     (calls p (trace s') = S (calls p (trace s)) /\
      mem s' !! p = Some (set_taskStatus uKernel_PAUSED d))) /\
    (forall pre post s1,
       prog = pre ++ Dispatch :: post -> run fuel pre s = Ok s1 -> visits_due s1 p d ->
       calls p (trace s') = S (calls p (trace s)) /\
       (calls p (trace s1) = calls p (trace s) ->
        exists s2, uKernelScheduler_body s1 = Ok s2 /\
                   trace s2 = trace s1 ++ [Call p (taskPointer d); Wdt] /\
                   mem s2 !! p = Some (set_taskStatus uKernel_PAUSED d))) /\
    (calls p (trace s') = S (calls p (trace s)) ->
     exists pre post s1,
       prog = pre ++ Dispatch :: post /\ run fuel pre s = Ok s1 /\ visits_due s1 p d /\
       calls p (trace s1) = calls p (trace s)).
Proof.
  induction prog as [|a prog IH]; intros s HR Hin Hd Hst Hpas.
  - exists s. simpl. split; [reflexivity|]. split; [left; auto|]. split.
    + intros [|? ?] post s1 E; discriminate.
    + intros Hc. lia.
  - apply Forall_passive_cons in Hpas as ([->| ->] & Hpas); simpl.
    + destruct (IH (tick s) (ring_closed_tick _ _ HR) Hin Hd Hst Hpas)
        as (s' & E & HA & HB & HC).
      exists s'. split; [exact E|]. split; [exact HA|]. split.
      * intros [|a pre] post s1 Eq Hrun Hv; [discriminate|].
        simpl in Eq. injection Eq as <- Eq. simpl in Hrun.
        exact (HB pre post s1 Eq Hrun Hv).
      * intros Hc. destruct (HC Hc) as (pre & post & s1 & Eq & Hrun & Hv & Hc1).
        exists (Tick :: pre), post, s1. rewrite Eq. auto.
    + destruct (uKernelScheduler_body_on R s p d HR Hin Hd)
        as (s1 & E1 & HR1 & [(Hv & Hrun & Ht & Hm)|(Hnv & Hc & Hd1)]); rewrite E1; simpl.
      * assert (Hbit : (Z.land (taskStatus d) uKernel_ONETIME =? 0) = false)
          by (rewrite Hst; reflexivity).
        rewrite Hbit in Hm.
        assert (Hc1 : calls p (trace s1) = S (calls p (trace s))).
        { rewrite Ht, calls_app, calls_call_same. lia. }
        destruct (paused_stays_paused fuel R p _ prog s1 HR1 Hin Hm eq_refl Hpas)
          as (s' & E & _ & Hd' & Hc').
        exists s'. split; [exact E|]. split; [right; split; [lia | exact Hd']|]. split.
        -- intros [|a pre] post s2 Eq Hpre Hv2.
           ++ simpl in Hpre. injection Hpre as <-. split; [lia|]. intros _.
              exists s1. rewrite Ht. auto.
           ++ simpl in Eq. injection Eq as <- Eq. simpl in Hpre. rewrite E1 in Hpre.
              simpl in Hpre. split; [lia|]. intros Hc2.
              assert (Hpas' : Forall passive pre).
              { rewrite Eq in Hpas. apply Forall_app in Hpas as [H _]. exact H. }
              destruct (paused_stays_paused fuel R p _ pre s1 HR1 Hin Hm eq_refl Hpas')
                as (s2' & E2 & _ & _ & Hc2').
              rewrite Hpre in E2. injection E2 as <-. lia.
        -- intros _. exists [], prog, s. simpl. auto.
      * destruct (IH s1 HR1 Hin Hd1 Hst Hpas) as (s' & E & HA & HB & HC).
        exists s'. split; [exact E|]. split; [|split].
        -- destruct HA as [(Ha & Hb)|(Ha & Hb)]; [left | right]; split; auto; lia.
        -- intros [|a pre] post s2 Eq Hpre Hv2.
           ++ simpl in Hpre. injection Hpre as <-. exfalso. apply Hnv. split; [exact Hv2|].
              rewrite Hst. reflexivity.
           ++ simpl in Eq. injection Eq as <- Eq. simpl in Hpre. rewrite E1 in Hpre.
              simpl in Hpre. destruct (HB pre post s2 Eq Hpre Hv2) as (Hx & Hy).
              split; [lia|]. intros Hc2. apply Hy. lia.
        -- intros Hc'. destruct (HC ltac:(lia)) as (pre & post & s2 & Eq & Hrun & Hv & Hc2).
           exists (Dispatch :: pre), post, s2. rewrite Eq. simpl. rewrite E1. simpl.
           split; [reflexivity|]. split; [exact Hrun|]. split; [exact Hv|]. lia.
Qed.

(** The due test of the loop is true exactly when the due time has been
    reached. *)
Lemma due_reached c n : due c n = true <-> reached c n.
Proof.
  unfold due, reached, to_int32, wrap32.
  pose proof (Z.mod_pos_bound (c - n) (2 ^ 32) ltac:(lia)) as Hb.
  destruct (Z.ltb_spec ((c - n) mod 2 ^ 32) (2 ^ 31)); rewrite Z.leb_le; lia.
Qed.

Lemma visits_due_examined s p d : visits_due s p d <-> examined_when_due s p d.
Proof. unfold visits_due, examined_when_due. rewrite due_reached. tauto. Qed.

(** C7.  A registered task whose stored status is [uKernel_ONETIME], under
    any sequence of timer ticks and turns of the dispatch loop.  The run goes
    through.  The task body is called at most once; when it has been called
    the status is [uKernel_PAUSED], otherwise the descriptor is untouched.
    If some turn of the loop examines the task at a tick at which its due
    time has been reached (the difference of tick and due time, as a signed
    32-bit quantity, is not negative), the body has been called exactly
    once, namely at the first such turn, which appends the call to the trace
    and leaves the status [uKernel_PAUSED].  And the body is called at no
    other turn: when it has been called, there was such a turn, and it had
    not been called before that turn. *)
Theorem onetime_fires_once (fuel : nat) (R : gset N) (s : kernel) (p : ptr)
    (d : uKernelTaskDescriptor) (prog : list action) :
  ring_closed R s -> p ∈ R -> mem s !! p = Some d -> taskStatus d = uKernel_ONETIME ->
  Forall passive prog ->
  exists s', run fuel prog s = Ok s' /\
    ((calls p (trace s') = calls p (trace s) /\ mem s' !! p = Some d) \/
     (calls p (trace s') = S (calls p (trace s)) /\ status_of s' p = Some uKernel_PAUSED)) /\
    (forall pre post s1,
       prog = pre ++ Dispatch :: post -> run fuel pre s = Ok s1 -> examined_when_due s1 p d ->
       calls p (trace s') = S (calls p (trace s)) /\
       (calls p (trace s1) = calls p (trace s) ->
        exists s2, uKernelScheduler_body s1 = Ok s2 /\
                   trace s2 = trace s1 ++ [Call p (taskPointer d); Wdt] /\
                   status_of s2 p = Some uKernel_PAUSED)) /\
    (calls p (trace s') = S (calls p (trace s)) ->
     exists pre post s1,
       prog = pre ++ Dispatch :: post /\ run fuel pre s = Ok s1 /\
       examined_when_due s1 p d /\ calls p (trace s1) = calls p (trace s)).
Proof.
  intros HR Hin Hd Hst Hpas.
  destruct (onetime_run fuel R p d prog s HR Hin Hd Hst Hpas) as (s' & E & HA & HB & HC).
  exists s'. split; [exact E|]. split; [|split].
  - destruct HA as [HA|(Ha & Hb)]; [left; exact HA|].
    right. split; [exact Ha|]. unfold status_of. rewrite Hb. reflexivity.
  - intros pre post s1 Eq Hpre Hv. apply visits_due_examined in Hv.
    destruct (HB pre post s1 Eq Hpre Hv) as (Hx & Hy).
    split; [exact Hx|]. intros Hc. destruct (Hy Hc) as (s2 & E2 & Ht & Hm).
    exists s2. split; [exact E2|]. split; [exact Ht|].
    unfold status_of. rewrite Hm. reflexivity.
  - intros Hc. destruct (HC Hc) as (pre & post & s1 & Eq & Hrun & Hv & Hc1).
    exists pre, post, s1. apply visits_due_examined in Hv. auto.
Qed.

Lemma onetime_fires_once_witness :
  exists s0 s',
    run 8 [Dispatch] one_shot_host = Ok s0 /\ calls 1 (trace s0) = 0%nat /\
    run 8 [Dispatch; Tick; Tick; Dispatch; Dispatch; Tick; Dispatch] one_shot_host = Ok s' /\
    calls 1 (trace s') = 1%nat /\ status_of s' 1 = Some uKernel_PAUSED.
Proof.
  assert (HR : ring_closed {[1%N]} one_shot_host).
  { split; [vm_compute; set_solver|]. split; [right; vm_compute; set_solver|].
    intros q Hq. apply elem_of_singleton in Hq as ->.
    exists (TaskDescriptor 7 2 2 uKernel_ONETIME 1).
    split; [vm_compute; reflexivity|]. split; [simpl; set_solver | vm_compute; discriminate]. }
  assert (Hin : 1%N ∈ ({[1%N]} : gset N)) by set_solver.
  assert (Hd : mem one_shot_host !! 1%N = Some (TaskDescriptor 7 2 2 uKernel_ONETIME 1))
    by (vm_compute; reflexivity).
  destruct (onetime_fires_once 8 {[1%N]} one_shot_host 1 (TaskDescriptor 7 2 2 uKernel_ONETIME 1)
              [Dispatch] HR Hin Hd eq_refl) as (s0 & E0 & HA0 & _ & HC0);
    [repeat constructor; right; reflexivity|].
  destruct (onetime_fires_once 8 {[1%N]} one_shot_host 1 (TaskDescriptor 7 2 2 uKernel_ONETIME 1)
              [Dispatch; Tick; Tick; Dispatch; Dispatch; Tick; Dispatch] HR Hin Hd eq_refl)
    as (s' & E & HA & HB & _);
    [repeat constructor; (left; reflexivity) || (right; reflexivity)|].
  change (calls 1 (trace one_shot_host)) with 0%nat in *.
  exists s0, s'. split; [exact E0|]. split; [|split; [exact E|]].
  - destruct HA0 as [(Ha & _)|(Ha & _)]; [exact Ha|]. exfalso.
    destruct (HC0 Ha) as (pre & post & s1 & Eq & Hrun & (_ & _ & Hr) & _).
    destruct pre as [|a pre]; [|destruct pre; discriminate].
    simpl in Hrun. injection Hrun as <-. vm_compute in Hr. discriminate.
  - destruct (HB [Dispatch; Tick; Tick] [Dispatch; Tick; Dispatch]
                (Kernel true 2 1 1 1 (mem one_shot_host) [Wdt]) eq_refl) as (Hx & _).
    + vm_compute; reflexivity.
    + split; [reflexivity|]. split; [vm_compute; discriminate | vm_compute; reflexivity].
    + split; [exact Hx|]. destruct HA as [(Ha & _)|(_ & Hb)]; [congruence | exact Hb].
Defined.

(** ** Stored statuses *)

Lemma land3_two_bit x : two_bit (Z.land x 0x03).
Proof.
  unfold two_bit. change 0x03 with (Z.ones 2). rewrite Z.land_ones by lia.
  apply Z.mod_pos_bound. lia.
Qed.

Lemma two_bit_no_immediatestart x : two_bit x -> Z.land x 0x04 = 0.
Proof.
  unfold two_bit. intros H.
  assert (x = 0 \/ x = 1 \/ x = 2 \/ x = 3) as [->|[->|[->| ->]]] by lia; reflexivity.
Qed.

Create HintDb keeps.

Section StoredStatus.

(** The descriptor whose status is followed. *)
Variable p : N.

Local Abbreviation holds_two_bit := (holds_two_bit p).

Lemma keeps_pTaskNext n : keeps (set_pTaskNext n).
Proof. intros d H. exact H. Qed.
Lemma keeps_plannedTask t : keeps (set_plannedTask t).
Proof. intros d H. exact H. Qed.
Lemma keeps_userTasksInterval i : keeps (set_userTasksInterval i).
Proof. intros d H. exact H. Qed.
Lemma keeps_taskPointer f : keeps (set_taskPointer f).
Proof. intros d H. exact H. Qed.
Lemma keeps_taskStatus st : two_bit st -> keeps (set_taskStatus st).
Proof. intros Hst d _. exact Hst. Qed.

Lemma store_keeps q g s s' :
  keeps g -> store q g s = Ok s' -> holds_two_bit s -> holds_two_bit s'.
Proof.
  intros Hg H (d & Hd & Hst). apply store_Ok in H as (dq & Hq & Hdq & ->).
  unfold holds_two_bit. simpl. destruct (decide (q = p)) as [->|Hne].
  - rewrite lookup_insert_eq. exists (g dq). split; [reflexivity|].
    apply Hg. rewrite Hd in Hdq. injection Hdq as <-. exact Hst.
  - rewrite lookup_insert_ne by exact Hne. eauto.
Qed.

Lemma call_keeps q f s s' : call q f s = Ok s' -> holds_two_bit s -> holds_two_bit s'.
Proof.
  unfold call. destruct (f =? NULL)%N; [discriminate|]. intros [= <-] H. exact H.
Qed.

Hint Resolve keeps_pTaskNext keeps_plannedTask keeps_userTasksInterval keeps_taskPointer
  keeps_taskStatus land3_two_bit : keeps.

(** Take the next statement of a C function apart. *)
Ltac statement :=
  match goal with
  | H : Ok _ = Ok _ |- _ => injection H as H; try subst
  | H : bind _ _ = Ok _ |- _ =>
      let s := fresh "s" in let E := fresh "E" in apply bind_Ok in H as (s & E & H)
  | H : (if ?c then _ else _) = Ok _ |- _ => destruct c
  | H : store _ _ _ = Ok _, I : holds_two_bit _ |- _ =>
      apply store_keeps in H; [clear I | auto with keeps | exact I]
  | H : call _ _ _ = Ok _, I : holds_two_bit _ |- _ =>
      apply call_keeps in H; [clear I | exact I]
  end.

Lemma uKernelAddTask_keeps fuel q f i st s b s' :
  uKernelAddTask fuel q f i st s = Ok (b, s') -> holds_two_bit s -> holds_two_bit s'.
Proof.
  unfold uKernelAddTask. intros H I. repeat statement; simpl in *; auto.
Qed.

Lemma uKernelRemoveTask_keeps fuel q s b s' :
  uKernelRemoveTask fuel q s = Ok (b, s') -> holds_two_bit s -> holds_two_bit s'.
Proof.
  unfold uKernelRemoveTask. intros H I. repeat statement; simpl in *; auto.
Qed.

Lemma uKernelSetTask_keeps q i st s b s' :
  two_bit st ->
  uKernelSetTask q i st s = Ok (b, s') -> holds_two_bit s -> holds_two_bit s'.
Proof.
  unfold uKernelSetTask. intros Hst H I. repeat statement; simpl in *; auto.
Qed.

Lemma uKernelModifyTask_keeps q i st s b s' :
  two_bit st ->
  uKernelModifyTask q i st s = Ok (b, s') -> holds_two_bit s -> holds_two_bit s'.
Proof.
  unfold uKernelModifyTask. intros Hst H I. repeat statement; simpl in *; auto.
Qed.

Lemma uKernelScheduler_body_keeps s s' :
  uKernelScheduler_body s = Ok s' -> holds_two_bit s -> holds_two_bit s'.
Proof.
  unfold uKernelScheduler_body. intros H I.
  assert (two_bit uKernel_PAUSED) by (unfold two_bit, uKernel_PAUSED; lia).
  repeat statement; simpl in *; auto.
Qed.

Lemma exec_keeps fuel a s s' :
  tame a -> exec fuel a s = Ok s' -> holds_two_bit s -> holds_two_bit s'.
Proof.
  destruct a as [|q f i st|q|q|q st|q i st| |]; simpl; intros Ht H I.
  - injection H as <-. exact I.
  - apply bind_Ok in H as ([b s1] & E & [= <-]). eapply uKernelAddTask_keeps; eauto.
  - apply bind_Ok in H as ([b s1] & E & [= <-]). eapply uKernelRemoveTask_keeps; eauto.
  - apply bind_Ok in H as ([b s1] & E & [= <-]).
    eapply (uKernelSetTask_keeps q 0 uKernel_PAUSED); eauto.
    unfold two_bit, uKernel_PAUSED; lia.
  - apply bind_Ok in H as ([b s1] & E & [= <-]). eapply uKernelSetTask_keeps; eauto.
  - apply bind_Ok in H as ([b s1] & E & [= <-]). eapply uKernelModifyTask_keeps; eauto.
  - injection H as <-. exact I.
  - eapply uKernelScheduler_body_keeps; eauto.
Qed.

Lemma run_keeps fuel prog : forall s s',
  Forall tame prog -> run fuel prog s = Ok s' -> holds_two_bit s -> holds_two_bit s'.
Proof.
  induction prog as [|a prog IH]; intros s s' Ht H I; simpl in H.
  - injection H as <-. exact I.
  - apply bind_Ok in H as (s1 & E & H). inversion Ht; subst.
    eapply IH; eauto. eapply exec_keeps; eauto.
Qed.

End StoredStatus.

(** C3 fails in two places.  Registering with
    [uKernel_ONETIME_IMMEDIATESTART] stores [0x07 & 0x03 = 3], which is none
    of the three statuses.  [uKernelModifyTask] stores the status it is given,
    so [uKernel_IMMEDIATESTART] is stored as 5, with the bit [0x04] set. *)
Lemma status_always_persisted_counterexample :
  (exists s, run 8 [Init; AddTask 1 7 100 uKernel_ONETIME_IMMEDIATESTART] (boot (slots 3)) = Ok s /\
             status_of s 1 = Some 3 /\ ~ persisted 3) /\
  (exists s, run 8 [Init; AddTask 1 7 100 uKernel_SCHEDULED;
                    ModifyTask 1 100 uKernel_IMMEDIATESTART] (boot (slots 3)) = Ok s /\
             status_of s 1 = Some 5 /\ Z.land 5 0x04 = 4 /\ ~ persisted 5) /\
  ~ status_always_persisted.
Proof.
  assert (H3 : ~ persisted 3)
    by (unfold persisted, uKernel_PAUSED, uKernel_SCHEDULED, uKernel_ONETIME; lia).
  assert (H5 : ~ persisted 5)
    by (unfold persisted, uKernel_PAUSED, uKernel_SCHEDULED, uKernel_ONETIME; lia).
  split; [|split].
  - eexists. split; [vm_compute; reflexivity|]. split; [vm_compute; reflexivity | exact H3].
  - eexists. split; [vm_compute; reflexivity|]. split; [vm_compute; reflexivity|].
    split; [reflexivity | exact H5].
  - intros H. apply H3.
    destruct (uKernelAddTask 8 1 7 100 uKernel_ONETIME_IMMEDIATESTART (uKernelInit (boot (slots 3))))
      as [[b s1]| |] eqn:E; [|vm_compute in E; discriminate..].
    assert (Hb : b = true) by (vm_compute in E; congruence). subst b.
    apply (H 8%nat _ s1 s1 1%N 7%N 100 uKernel_ONETIME_IMMEDIATESTART 3 [] E);
      [discriminate | reflexivity |].
    vm_compute in E. injection E as <-. vm_compute. reflexivity.
Qed.

(** C3, amended.  Once a descriptor has been registered, its stored status
    is a two-bit value (0 to 3: [uKernel_PAUSED], [uKernel_SCHEDULED],
    [uKernel_ONETIME], or 3, which registration stores for
    [uKernel_ONETIME_IMMEDIATESTART]) and the bit [0x04] of
    [uKernel_IMMEDIATESTART] is not stored, in every state reached from
    there by [uKernelInit], registrations, removals, pauses, timer ticks,
    turns of the dispatch loop, and by [uKernelResumeTask] and
    [uKernelModifyTask] called with a status from 0 to 3. *)
Theorem stored_status_two_bit (fuel : nat) (s s1 s' : kernel) (p : ptr) (f : fnptr)
    (i st : Z) (post : list action) :
  uKernelAddTask fuel p f i st s = Ok (true, s1) -> p ≠ NULL ->
  Forall tame post -> run fuel post s1 = Ok s' ->
  exists x, status_of s' p = Some x /\ two_bit x /\ Z.land x 0x04 = 0.
Proof.
  intros Hadd Hp Ht Hrun.
  assert (I1 : holds_two_bit p s1).
  { destruct (uKernelAddTask_stores _ _ _ _ _ _ _ Hadd Hp) as (t & n & E).
    eexists. split; [exact E|]. apply land3_two_bit. }
  destruct (run_keeps p fuel post s1 s' Ht Hrun I1) as (d & Hd & Hst).
  exists (taskStatus d). unfold status_of. rewrite Hd.
  split; [reflexivity|]. split; [exact Hst | apply two_bit_no_immediatestart; exact Hst].
Qed.

Lemma stored_status_two_bit_witness :
  exists s1 s',
    uKernelAddTask 8 1 7 100 uKernel_ONETIME_IMMEDIATESTART (uKernelInit (boot (slots 3)))
      = Ok (true, s1) /\
    run 8 [Dispatch; ResumeTask 1 uKernel_ONETIME; Tick; AddTask 2 8 10 uKernel_IMMEDIATESTART;
           Dispatch; ModifyTask 1 5 uKernel_SCHEDULED; PauseTask 2; RemoveTask 2; Dispatch] s1
      = Ok s' /\
    exists x, status_of s' 1 = Some x /\ two_bit x /\ Z.land x 0x04 = 0.
Proof.
  destruct (uKernelAddTask 8 1 7 100 uKernel_ONETIME_IMMEDIATESTART (uKernelInit (boot (slots 3))))
    as [[b s1]| |] eqn:E; [|vm_compute in E; discriminate..].
  assert (Hb : b = true) by (vm_compute in E; congruence). subst b.
  destruct (run 8 [Dispatch; ResumeTask 1 uKernel_ONETIME; Tick;
                   AddTask 2 8 10 uKernel_IMMEDIATESTART; Dispatch;
                   ModifyTask 1 5 uKernel_SCHEDULED; PauseTask 2; RemoveTask 2; Dispatch] s1)
    as [s'| |] eqn:R;
    [|vm_compute in E; injection E as <-; vm_compute in R; discriminate..].
  exists s1, s'. split; [reflexivity|]. split; [exact R|].
  refine (stored_status_two_bit 8 _ s1 s' 1 7 100 uKernel_ONETIME_IMMEDIATESTART _ E _ _ R).
  - discriminate.
  - repeat constructor; unfold two_bit, uKernel_ONETIME, uKernel_SCHEDULED; lia.
Defined.

(** * Further properties of the scheduler *)

(** ** Rings as lists *)

Lemma chain_app m a b stop :
  chain m (a ++ b) stop <-> chain m a (hd stop b) /\ chain m b stop.
Proof.
  induction a as [|p a IH]; simpl.
  - tauto.
  - rewrite IH. destruct a as [|q a]; simpl; tauto.
Qed.

(** A chain only depends on the links and task bodies of its members. *)
Lemma chain_frame m m' l stop :
  (forall p d, p ∈ l -> m !! p = Some d ->
     exists d', m' !! p = Some d' /\ pTaskNext d' = pTaskNext d /\
                taskPointer d' = taskPointer d) ->
  chain m l stop -> chain m' l stop.
Proof.
  induction l as [|p l IH]; simpl; intros Hf H; [exact I|].
  destruct H as (Hp & (d & Hd & Hb & Hn) & Hc). split; [exact Hp|]. split.
  - destruct (Hf p d ltac:(left) Hd) as (d' & Hd' & Hn' & Hb').
    exists d'. rewrite Hn', Hb'. auto.
  - apply IH; [|exact Hc]. intros q dq Hq. apply Hf. right. exact Hq.
Qed.

Lemma chain_lookup m l stop p :
  chain m l stop -> p ∈ l ->
  p ≠ NULL /\ exists d, m !! p = Some d /\ taskPointer d ≠ NULL /\
                        (pTaskNext d ∈ l \/ pTaskNext d = stop).
Proof.
  induction l as [|q l IH]; simpl; intros H Hin; [inversion Hin|].
  destruct H as (Hq & (d & Hd & Hb & Hn) & Hc).
  apply elem_of_cons in Hin as [->|Hin].
  - split; [exact Hq|]. exists d. repeat split; auto.
    destruct l as [|r l]; simpl in Hn; [right; exact Hn|].
    left. rewrite Hn. right. left.
  - destruct (IH Hc Hin) as (Hp & d' & Hd' & Hb' & Hn'). split; [exact Hp|].
    exists d'. repeat split; auto. destruct Hn' as [Hn'|Hn']; [left; right; exact Hn' | auto].
Qed.

(** The predecessor walk along a chain stops at its last descriptor. *)
Lemma walk_chain m stop c : forall a fuel,
  chain m (a ++ [c]) stop -> stop ∉ tl (a ++ [c]) -> (length (a ++ [c]) <= fuel)%nat ->
  walk fuel m (hd c a) stop = Ok c.
Proof.
  induction a as [|p a IH]; intros fuel Hc Hs Hf.
  - simpl in *. destruct Hc as (Hp & (d & Hd & _ & Hn) & _).
    destruct fuel as [|fuel]; [lia|]. simpl.
    rewrite (load_at _ _ _ Hp Hd). simpl. rewrite Hn, N.eqb_refl. reflexivity.
  - simpl in Hc. destruct Hc as (Hp & (d & Hd & _ & Hn) & Hc).
    destruct fuel as [|fuel]; [simpl in Hf; lia|]. simpl.
    rewrite (load_at _ _ _ Hp Hd). simpl.
    assert (Hhd : hd stop (a ++ [c]) = hd c a) by (destruct a; reflexivity).
    rewrite Hhd in Hn. simpl in Hs.
    assert (Hne : pTaskNext d ≠ stop).
    { intros E. apply Hs. rewrite <- E, Hn. destruct a; simpl; left. }
    apply N.eqb_neq in Hne. rewrite Hne, Hn.
    apply IH; [exact Hc | | simpl in Hf; lia].
    intros Hin. apply Hs. destruct a as [|q a]; simpl in *; [inversion Hin|].
    right. exact Hin.
Qed.

Lemma entry_guard_passes s (f : N) :
  _initialized s = true -> _numberTasks s ≠ MAX_TASKS_NUMBER -> f ≠ NULL ->
  negb (_initialized s) || (_numberTasks s =? MAX_TASKS_NUMBER) || (f =? NULL)%N = false.
Proof. intros. apply guard_false. auto. Qed.

(** ** Registration *)

(** Unfold the assignments to a state and to a descriptor. *)
Ltac setters :=
  unfold set_initialized, set_counterMs, set_numberTasks, set_pTaskSchedule, set_pTaskFirst,
    set_mem, emit, set_taskPointer, set_userTasksInterval, set_plannedTask, set_taskStatus,
    set_pTaskNext; simpl.

(** The descriptor a registration writes. *)
Lemma uKernelAddTask_first fuel p f i st s d0 :
  _initialized s = true -> _numberTasks s ≠ MAX_TASKS_NUMBER -> f ≠ NULL ->
  p ≠ NULL -> mem s !! p = Some d0 -> pTaskFirst s = NULL ->
  uKernelAddTask fuel p f i st s =
    Ok (true,
        Kernel true (_counterMs s) (wrap8 (_numberTasks s + 1)) p p
          (<[p := TaskDescriptor f (registered_interval i)
                    (wrap32 (_counterMs s +
                       (if Z.land (if st >? uKernel_ONETIME_IMMEDIATESTART
                                   then uKernel_SCHEDULED else st) 0x04 =? 0
                        then registered_interval i else 0)))
                    (Z.land (if st >? uKernel_ONETIME_IMMEDIATESTART
                             then uKernel_SCHEDULED else st) 0x03)
                    p]> (mem s))
          (trace s)).
Proof.
  intros Hi Hn Hf Hp Hd Hfirst. unfold uKernelAddTask.
  rewrite (entry_guard_passes s f Hi Hn Hf).
  apply N.eqb_neq in Hp as Hp'. rewrite Hp'. rewrite Hfirst. simpl negb. cbv iota.
  fold (registered_interval i).
  rewrite (store_at _ _ _ d0) by (simpl; auto). simpl bind.
  erewrite store_at; [|exact Hp|simpl; apply lookup_insert_eq]. simpl bind.
  erewrite store_at; [|exact Hp|simpl; apply lookup_insert_eq]. simpl bind.
  erewrite store_at; [|exact Hp|simpl; apply lookup_insert_eq]. simpl bind.
  erewrite store_at; [|exact Hp|simpl; apply lookup_insert_eq]. simpl bind.
  setters. rewrite !insert_insert_eq, Hi. reflexivity.
Qed.

Lemma snoc_of_cons {A} (x : A) (l : list A) : exists a c, x :: l = a ++ [c].
Proof.
  revert x. induction l as [|y l IH]; intros x.
  - exists [], x. reflexivity.
  - destruct (IH y) as (a & c & E). exists (x :: a), c. simpl. rewrite E. reflexivity.
Qed.

(** In a ring, the walk of [uKernelAddTask] from any member ends at the last
    descriptor, the one that points back to [pTaskFirst]. *)
Lemma walk_to_last s l w fuel :
  ring s l -> w ∈ l -> (length l <= fuel)%nat ->
  exists b c dc, l = b ++ [c] /\ walk fuel (mem s) w (pTaskFirst s) = Ok c /\
                 mem s !! c = Some dc /\ pTaskNext dc = pTaskFirst s /\
                 taskPointer dc ≠ NULL /\ c ≠ NULL.
Proof.
  intros (Hne & Hnd & Hfirst & Hch) Hw Hf.
  apply list_elem_of_split in Hw as (l1 & l2 & ->).
  destruct (snoc_of_cons w l2) as (a & c & E).
  assert (Hhd : hd c a = w).
  { destruct a as [|x a]; simpl in E; injection E; intros; subst; reflexivity. }
  rewrite E in *. clear E.
  apply chain_app in Hch as (_ & Hsuf).
  assert (Hstop : hd NULL (l1 ++ a ++ [c]) ∉ tl (a ++ [c])).
  { apply NoDup_app in Hnd as (Hn1 & Hdisj & Hn2).
    destruct l1 as [|q l1]; simpl.
    - destruct a as [|x a]; simpl in *; [apply not_elem_of_nil|].
      apply NoDup_cons in Hn2 as [Hx _]. exact Hx.
    - intros Hin. apply (Hdisj q); [left|].
      destruct a as [|x a]; simpl in *; [inversion Hin | right; exact Hin]. }
  exists (l1 ++ a), c.
  assert (Hc : chain (mem s) [c] (hd NULL (l1 ++ a ++ [c])))
    by (apply chain_app in Hsuf as (_ & H); exact H).
  simpl in Hc. destruct Hc as (Hcn & (dc & Hdc & Hb & Hn) & _).
  exists dc. rewrite Hfirst, <- Hhd.
  split; [rewrite <- app_assoc; reflexivity|].
  split; [apply walk_chain; [exact Hsuf | exact Hstop | rewrite !length_app in *; simpl in *; lia]|].
  auto.
Qed.

(** Registration into a ring with members, with the walk done. *)
Lemma uKernelAddTask_linked fuel p f i st s d0 c dc :
  _initialized s = true -> _numberTasks s ≠ MAX_TASKS_NUMBER -> f ≠ NULL ->
  p ≠ NULL -> mem s !! p = Some d0 -> pTaskFirst s ≠ NULL ->
  walk fuel (mem s) (pTaskSchedule s) (pTaskFirst s) = Ok c ->
  c ≠ NULL -> mem s !! c = Some dc -> c ≠ p ->
  uKernelAddTask fuel p f i st s =
    Ok (true,
        Kernel true (_counterMs s) (wrap8 (_numberTasks s + 1)) (pTaskSchedule s) (pTaskFirst s)
          (<[p := TaskDescriptor f (registered_interval i)
                    (wrap32 (_counterMs s +
                       (if Z.land (if st >? uKernel_ONETIME_IMMEDIATESTART
                                   then uKernel_SCHEDULED else st) 0x04 =? 0
                        then registered_interval i else 0)))
                    (Z.land (if st >? uKernel_ONETIME_IMMEDIATESTART
                             then uKernel_SCHEDULED else st) 0x03)
                    (pTaskFirst s)]>
             (<[c := set_pTaskNext p dc]> (mem s)))
          (trace s)).
Proof.
  intros Hi Hn Hf Hp Hd Hfirst Hw Hc Hdc Hcp. unfold uKernelAddTask.
  rewrite (entry_guard_passes s f Hi Hn Hf).
  apply N.eqb_neq in Hp as Hp'. rewrite Hp'.
  apply N.eqb_neq in Hfirst as Hfirst'. rewrite Hfirst'. simpl negb. cbv iota.
  fold (registered_interval i). rewrite Hw. simpl bind.
  rewrite (store_at _ _ _ dc Hc Hdc). simpl bind.
  rewrite (store_at _ _ _ d0);
    [|exact Hp|simpl; rewrite lookup_insert_ne by exact Hcp; exact Hd].
  simpl bind.
  erewrite store_at; [|exact Hp|simpl; apply lookup_insert_eq]. simpl bind.
  erewrite store_at; [|exact Hp|simpl; apply lookup_insert_eq]. simpl bind.
  erewrite store_at; [|exact Hp|simpl; apply lookup_insert_eq]. simpl bind.
  erewrite store_at; [|exact Hp|simpl; apply lookup_insert_eq]. simpl bind.
  setters. rewrite !insert_insert_eq, Hi. reflexivity.
Qed.

Lemma wrap8_small x : 0 <= x < 2 ^ 8 -> wrap8 x = x.
Proof. intros H. unfold wrap8. apply Z.mod_small. exact H. Qed.

(** Registration into an empty ring. *)
Lemma uKernelAddTask_into_empty_ring (fuel : nat) (p : ptr) (f : fnptr) (i st : Z)
    (s : kernel) (d0 : uKernelTaskDescriptor) :
  _initialized s = true -> 0 <= _numberTasks s < MAX_TASKS_NUMBER -> f ≠ NULL ->
  p ≠ NULL -> mem s !! p = Some d0 -> pTaskFirst s = NULL ->
  exists s', uKernelAddTask fuel p f i st s = Ok (true, s') /\
    ring s' [p] /\ pTaskSchedule s' = p /\ next_of s' p = Some p /\
    _numberTasks s' = _numberTasks s + 1 /\ _initialized s' = true /\
    (forall q, q ≠ p -> mem s' !! q = mem s !! q).
Proof.
  intros Hi Hn Hf Hp Hd Hfirst. unfold MAX_TASKS_NUMBER in Hn.
  rewrite (uKernelAddTask_first fuel p f i st s d0 Hi) by (unfold MAX_TASKS_NUMBER; auto; lia).
  eexists. split; [reflexivity|]. unfold ring, next_of. simpl.
  rewrite lookup_insert_eq.
  split; [|split; [reflexivity|split; [reflexivity|split; [|split; [reflexivity|]]]]].
  - split; [discriminate|]. split; [apply NoDup_singleton|]. split; [reflexivity|].
    split; [exact Hp|]. split; [|exact I]. eexists. split; [reflexivity|]. simpl. auto.
  - apply wrap8_small. lia.
  - intros q Hq. apply lookup_insert_ne. congruence.
Qed.

(** X1.  The first registration into an empty ring ([pTaskFirst] null) makes
    the descriptor the whole ring: it is the head and the dispatch cursor and
    points to itself, and the task count goes up by one; no other descriptor
    is written. *)
Theorem registration_into_empty_ring (fuel : nat) (p : ptr) (f : fnptr) (i st : Z)
    (s : kernel) (d0 : uKernelTaskDescriptor) :
  _initialized s = true -> 0 <= _numberTasks s < MAX_TASKS_NUMBER -> f ≠ NULL ->
  p ≠ NULL -> mem s !! p = Some d0 -> pTaskFirst s = NULL ->
  exists s', uKernelAddTask fuel p f i st s = Ok (true, s') /\
    ring s' [p] /\ pTaskSchedule s' = p /\ next_of s' p = Some p /\
    _numberTasks s' = _numberTasks s + 1 /\ _initialized s' = true /\
    (forall q, q ≠ p -> mem s' !! q = mem s !! q).
Proof. exact (uKernelAddTask_into_empty_ring fuel p f i st s d0). Qed.

Lemma registration_into_empty_ring_witness :
  exists s', uKernelAddTask 0 2 7 100 uKernel_SCHEDULED (uKernelInit (boot (slots 3))) = Ok (true, s') /\
    ring s' [2%N] /\ pTaskSchedule s' = 2%N /\ _numberTasks s' = 1.
Proof.
  destruct (registration_into_empty_ring 0 2 7 100 uKernel_SCHEDULED (uKernelInit (boot (slots 3))) blank)
    as (s' & E & Hr & Hc & _ & Hn & _ & _);
    [reflexivity | simpl; unfold MAX_TASKS_NUMBER; lia | discriminate | discriminate
    | vm_compute; reflexivity | reflexivity |].
  exists s'. auto.
Defined.

(** Registration into a ring with members. *)
Lemma uKernelAddTask_appends (fuel : nat) (p : ptr) (f : fnptr) (i st : Z)
    (s : kernel) (l : list N) (d0 : uKernelTaskDescriptor) :
  ring s l -> pTaskSchedule s ∈ l -> p ∉ l ->
  _initialized s = true -> 0 <= _numberTasks s < MAX_TASKS_NUMBER -> f ≠ NULL ->
  p ≠ NULL -> mem s !! p = Some d0 -> (length l <= fuel)%nat ->
  exists s', uKernelAddTask fuel p f i st s = Ok (true, s') /\
    ring s' (l ++ [p]) /\ pTaskSchedule s' = pTaskSchedule s /\
    _numberTasks s' = _numberTasks s + 1 /\ _initialized s' = true /\
    (forall q dq, q ≠ p -> mem s !! q = Some dq ->
       exists dq', mem s' !! q = Some dq' /\ taskStatus dq' = taskStatus dq /\
                   plannedTask dq' = plannedTask dq /\
                   userTasksInterval dq' = userTasksInterval dq /\
                   taskPointer dq' = taskPointer dq).
Proof.
  intros Hr Hcur Hnew Hi Hn Hf Hp Hd Hfuel.
  destruct (walk_to_last s l _ fuel Hr Hcur Hfuel)
    as (b & c & dc & -> & Hw & Hdc & Hnc & Hbc & Hc).
  destruct Hr as (Hne & Hnd & Hfirst & Hch).
  assert (Hcp : c ≠ p) by (intros ->; apply Hnew, elem_of_app; right; left).
  assert (Hfn : pTaskFirst s ≠ NULL).
  { rewrite Hfirst. apply chain_lookup with (p := hd NULL (b ++ [c])) in Hch as [H _]; [exact H|].
    destruct b; simpl; left. }
  rewrite (uKernelAddTask_linked fuel p f i st s d0 c dc Hi) by
    (unfold MAX_TASKS_NUMBER in *; auto; lia).
  eexists. split; [reflexivity|]. simpl.
  split; [|split; [reflexivity|split; [apply wrap8_small; unfold MAX_TASKS_NUMBER in Hn; lia|split; [reflexivity|]]]].
  - unfold ring. simpl. split; [destruct b; discriminate|]. split; [|split].
    + apply NoDup_app. split; [exact Hnd|]. split; [|apply NoDup_singleton].
      intros x Hx Hx'. apply list_elem_of_singleton in Hx'. subst x. exact (Hnew Hx).
    + rewrite Hfirst. destruct b; reflexivity.
    + assert (Hhd : hd NULL ((b ++ [c]) ++ [p]) = pTaskFirst s)
        by (rewrite Hfirst; destruct b; reflexivity).
      rewrite Hhd. apply chain_app. simpl. split.
      * apply chain_app. simpl. apply chain_app in Hch as (Hb & _). simpl in Hb.
        split.
        -- eapply chain_frame; [|exact Hb]. intros q dq Hq Hdq. exists dq.
           rewrite !lookup_insert_ne; [auto| |].
           ++ intros ->. apply NoDup_app in Hnd as (_ & Hdisj & _).
              apply (Hdisj q Hq). left.
           ++ intros ->. apply Hnew, elem_of_app. left. exact Hq.
        -- split; [exact Hc|]. split; [|exact I].
           exists (set_pTaskNext p dc). rewrite lookup_insert_ne by congruence.
           rewrite lookup_insert_eq. auto.
      * split; [exact Hp|]. split; [|exact I].
        eexists. rewrite lookup_insert_eq. split; [reflexivity|]. simpl. auto.
  - intros q dq Hq Hdq. rewrite lookup_insert_ne by congruence.
    destruct (decide (q = c)) as [->|Hqc].
    + rewrite lookup_insert_eq. exists (set_pTaskNext p dc).
      rewrite Hdc in Hdq. injection Hdq as <-. auto.
    + rewrite lookup_insert_ne by congruence. exists dq. auto.
Qed.

(** X2.  Registering a descriptor that is not yet a member appends it to the
    ring: with [l] the ring in dispatch order and the dispatch cursor on one
    of its members, the new ring is [l] followed by the new descriptor; the
    head and the cursor stay, the count goes up by one, and of every other
    descriptor the status, due time, interval and task body are as before. *)
Theorem registration_appends (fuel : nat) (p : ptr) (f : fnptr) (i st : Z)
    (s : kernel) (l : list N) (d0 : uKernelTaskDescriptor) :
  ring s l -> pTaskSchedule s ∈ l -> p ∉ l ->
  _initialized s = true -> 0 <= _numberTasks s < MAX_TASKS_NUMBER -> f ≠ NULL ->
  p ≠ NULL -> mem s !! p = Some d0 -> (length l <= fuel)%nat ->
  exists s', uKernelAddTask fuel p f i st s = Ok (true, s') /\
    ring s' (l ++ [p]) /\ pTaskSchedule s' = pTaskSchedule s /\
    _numberTasks s' = _numberTasks s + 1 /\ _initialized s' = true /\
    (forall q dq, q ≠ p -> mem s !! q = Some dq ->
       exists dq', mem s' !! q = Some dq' /\ taskStatus dq' = taskStatus dq /\
                   plannedTask dq' = plannedTask dq /\
                   userTasksInterval dq' = userTasksInterval dq /\
                   taskPointer dq' = taskPointer dq).
Proof. exact (uKernelAddTask_appends fuel p f i st s l d0). Qed.

Lemma registration_appends_witness :
  exists s s',
    run 8 [Init; AddTask 1 7 100 uKernel_SCHEDULED; AddTask 2 8 100 uKernel_ONETIME]
      (boot (slots 3)) = Ok s /\
    uKernelAddTask 2 3 9 10 uKernel_IMMEDIATESTART s = Ok (true, s') /\
    ring s' [1%N; 2%N; 3%N] /\ _numberTasks s' = 3.
Proof.
  set (s := Kernel true 0 2 1 1
              (<[2%N := TaskDescriptor 8 100 100 uKernel_ONETIME 1]>
                 (<[1%N := TaskDescriptor 7 100 100 uKernel_SCHEDULED 2]> (slots 3))) []).
  assert (Hr : ring s [1%N; 2%N]).
  { unfold ring. split; [discriminate|]. split; [|split; [reflexivity|]].
    - apply (NoDup_ListNoDup [1%N; 2%N]). repeat constructor; simpl; intros H; firstorder discriminate.
    - simpl. split; [discriminate|]. split.
      + eexists. split; [vm_compute; reflexivity|]. split; [discriminate | reflexivity].
      + split; [discriminate|]. split; [|exact I].
        eexists. split; [vm_compute; reflexivity|]. split; [discriminate | reflexivity]. }
  destruct (registration_appends 2 3 9 10 uKernel_IMMEDIATESTART s [1%N; 2%N] blank Hr)
    as (s' & E & Hr' & _ & Hn & _).
  - left.
  - intros H. apply elem_of_cons in H as [H|H]; [discriminate|].
    apply list_elem_of_singleton in H. discriminate.
  - reflexivity.
  - simpl. unfold MAX_TASKS_NUMBER. lia.
  - discriminate.
  - discriminate.
  - vm_compute; reflexivity.
  - simpl. lia.
  - exists s, s'. split; [vm_compute; reflexivity|]. split; [exact E|].
    split; [exact Hr' | exact Hn].
Defined.

(** Registering a list of fresh descriptors appends them in order. *)
Lemma register_all_appends fuel f i st : forall ps s l,
  ring s l -> pTaskSchedule s ∈ l -> _initialized s = true ->
  _numberTasks s = Z.of_nat (length l) -> f ≠ NULL ->
  NoDup (l ++ ps) -> NULL ∉ ps -> (forall p, p ∈ ps -> is_Some (mem s !! p)) ->
  (length l + length ps <= 255)%nat -> (length l + length ps <= fuel)%nat ->
  exists s', run fuel (register_all ps f i st) s = Ok s' /\
    ring s' (l ++ ps) /\ pTaskSchedule s' = pTaskSchedule s /\
    _initialized s' = true /\ _numberTasks s' = Z.of_nat (length (l ++ ps)).
Proof.
  induction ps as [|p ps IH]; intros s l Hr Hcur Hi Hn Hf Hnd H0 Hall Hcap Hfuel.
  - exists s. rewrite app_nil_r. simpl. auto.
  - simpl in Hcap, Hfuel.
    destruct (Hall p ltac:(left)) as (d0 & Hd0).
    assert (Hpl : p ∉ l).
    { intros Hin. apply NoDup_app in Hnd as (_ & Hdisj & _). apply (Hdisj p Hin). left. }
    destruct (uKernelAddTask_appends fuel p f i st s l d0 Hr Hcur Hpl Hi)
      as (s1 & E & Hr1 & Hc1 & Hn1 & Hi1 & Hfr);
      [unfold MAX_TASKS_NUMBER; lia | exact Hf | intros ->; apply H0; left | exact Hd0 | lia |].
    destruct (IH s1 (l ++ [p]) Hr1) as (s' & E' & Hr' & Hc' & Hi' & Hn').
    + rewrite Hc1. apply elem_of_app. left. exact Hcur.
    + exact Hi1.
    + rewrite Hn1, Hn, length_app. simpl. lia.
    + exact Hf.
    + rewrite <- app_assoc. exact Hnd.
    + intros Hin. apply H0. right. exact Hin.
    + intros q Hq. destruct (Hall q ltac:(right; exact Hq)) as (dq & Hdq).
      assert (Hqp : q ≠ p).
      { intros ->. apply NoDup_app in Hnd as (_ & _ & Hps).
        apply NoDup_cons in Hps as [Hx _]. exact (Hx Hq). }
      destruct (Hfr q dq Hqp Hdq) as (dq' & Hdq' & _). eauto.
    + rewrite length_app. simpl. lia.
    + rewrite length_app. simpl. lia.
    + exists s'. simpl. rewrite E. simpl. rewrite E'.
      rewrite <- app_assoc in Hr', Hn'. simpl in Hr', Hn'.
      split; [reflexivity|]. split; [exact Hr'|]. split; [congruence|]. auto.
Qed.

(** Registrations one after the other, from start-up. *)
Lemma register_all_from_boot (fuel : nat) (m : gmap N uKernelTaskDescriptor) (ps : list N)
    (f : fnptr) (i st : Z) :
  ps ≠ [] -> NoDup ps -> NULL ∉ ps -> (forall p, p ∈ ps -> is_Some (m !! p)) ->
  f ≠ NULL -> (length ps <= 255)%nat -> (length ps <= fuel)%nat ->
  exists s, run fuel (Init :: register_all ps f i st) (boot m) = Ok s /\
    ring s ps /\ pTaskSchedule s = hd NULL ps /\ _numberTasks s = Z.of_nat (length ps).
Proof.
  intros Hne Hnd H0 Hall Hf Hcap Hfuel.
  destruct ps as [|p ps]; [contradiction|]. clear Hne.
  destruct (Hall p ltac:(left)) as (d0 & Hd0).
  apply NoDup_cons in Hnd as Hnd'. destruct Hnd' as [Hp Hps].
  destruct (uKernelAddTask_into_empty_ring fuel p f i st (uKernelInit (boot m)) d0)
    as (s1 & E & Hr1 & Hc1 & _ & Hn1 & Hi1 & Hfr);
    [reflexivity | simpl; unfold MAX_TASKS_NUMBER; lia | exact Hf | intros ->; apply H0; left
    | exact Hd0 | reflexivity |].
  simpl in Hcap, Hfuel.
  destruct (register_all_appends fuel f i st ps s1 [p] Hr1)
    as (s' & E' & Hr' & Hc' & _ & Hn').
  - rewrite Hc1. left.
  - exact Hi1.
  - rewrite Hn1. reflexivity.
  - exact Hf.
  - exact Hnd.
  - intros Hin. apply H0. right. exact Hin.
  - intros q Hq. rewrite Hfr by (intros ->; exact (Hp Hq)). simpl. apply Hall. right. exact Hq.
  - simpl. lia.
  - simpl. lia.
  - exists s'. simpl. simpl in E. rewrite E. simpl. rewrite E'.
    split; [reflexivity|]. split; [exact Hr'|]. split; [congruence | exact Hn'].
Qed.

(** X3.  Registration order is dispatch order.  After [uKernelInit] at
    start-up, registering up to 255 distinct descriptors one after the other
    succeeds every time and leaves them as the ring in the order of
    registration, with the first one as head and dispatch cursor and the
    task count equal to their number. *)
Theorem registration_order (fuel : nat) (m : gmap N uKernelTaskDescriptor) (ps : list N)
    (f : fnptr) (i st : Z) :
  ps ≠ [] -> NoDup ps -> NULL ∉ ps -> (forall p, p ∈ ps -> is_Some (m !! p)) ->
  f ≠ NULL -> (length ps <= 255)%nat -> (length ps <= fuel)%nat ->
  exists s, run fuel (Init :: register_all ps f i st) (boot m) = Ok s /\
    ring s ps /\ pTaskSchedule s = hd NULL ps /\ _numberTasks s = Z.of_nat (length ps).
Proof. exact (register_all_from_boot fuel m ps f i st). Qed.

(** Close goals [NoDup l] and [x ∉ l] on explicit lists of addresses. *)
Ltac distinct :=
  repeat (apply NoDup_cons; split);
  try apply NoDup_nil_2;
  rewrite ?elem_of_cons, ?elem_of_nil; intuition discriminate.

Lemma registration_order_witness :
  exists s, run 3 (Init :: register_all [3%N; 1%N; 2%N] 7 100 uKernel_SCHEDULED) (boot (slots 3))
              = Ok s /\
    ring s [3%N; 1%N; 2%N] /\ pTaskSchedule s = 3%N /\ _numberTasks s = 3.
Proof.
  apply (registration_order 3 (slots 3) [3%N; 1%N; 2%N] 7 100 uKernel_SCHEDULED).
  - discriminate.
  - distinct.
  - distinct.
  - intros p Hp. rewrite !elem_of_cons, elem_of_nil in Hp.
    destruct Hp as [->|[->|[->|[]]]]; vm_compute; eauto.
  - discriminate.
  - simpl; lia.
  - simpl; lia.
Defined.

(** ** Removal *)

Lemma removal_guard_passes s (p : N) :
  _initialized s = true -> _numberTasks s ≠ 0 -> p ≠ NULL ->
  negb (_initialized s) || (_numberTasks s =? 0) || (p =? NULL)%N = false.
Proof.
  intros Hi Hn Hp. rewrite !orb_false_iff, negb_false_iff, Z.eqb_neq, N.eqb_neq. auto.
Qed.

(** X4.  Removing a member that is not the head unlinks it: its predecessor
    [c] is made to point to its successor, the ring is the old one without
    the removed descriptor, and the count goes down by one.  The head, the
    dispatch cursor and the removed descriptor itself (its link included) are
    left as they were. *)
Theorem removal_unlinks (fuel : nat) (s : kernel) (pre post : list N) (c p : N) :
  ring s (pre ++ c :: p :: post) ->
  _initialized s = true -> 0 < _numberTasks s <= MAX_TASKS_NUMBER ->
  (length pre < fuel)%nat ->
  exists s', uKernelRemoveTask fuel p s = Ok (true, s') /\
    ring s' (pre ++ c :: post) /\
    next_of s' c = next_of s p /\
    _numberTasks s' = _numberTasks s - 1 /\
    pTaskSchedule s' = pTaskSchedule s /\ pTaskFirst s' = pTaskFirst s /\
    (forall q, q ≠ c -> mem s' !! q = mem s !! q).
Proof.
  intros (Hne & Hnd & Hfirst & Hch) Hi Hn Hfuel.
  replace (pre ++ c :: p :: post) with ((pre ++ [c]) ++ p :: post) in *
    by (rewrite <- app_assoc; reflexivity).
  assert (Hhd : hd NULL ((pre ++ [c]) ++ p :: post) = hd c pre) by (destruct pre; reflexivity).
  rewrite Hhd in *.
  apply chain_app in Hch as (Hpre & Hpost). simpl hd in Hpre.
  apply NoDup_app in Hnd as Hnd'. destruct Hnd' as (Hn1 & Hdisj & Hn2).
  assert (Hw : walk fuel (mem s) (hd c pre) p = Ok c).
  { apply walk_chain; [exact Hpre | | rewrite length_app; simpl; lia].
    intros Hin. apply (Hdisj p); [|left].
    destruct pre as [|x pre]; simpl in Hin; [inversion Hin|]. right. exact Hin. }
  assert (Hcm : chain (mem s) [c] p) by (apply chain_app in Hpre as (_ & H); exact H).
  simpl in Hcm. destruct Hcm as (Hc0 & (dc & Hdc & Hbc & Hnc) & _).
  simpl in Hpost. destruct Hpost as (Hp0 & (dp & Hdp & Hbp & Hnp) & Hpost).
  assert (Hpf : p ≠ hd c pre).
  { intros E. apply (Hdisj p); [|left]. rewrite E. destruct pre; simpl; left. }
  unfold uKernelRemoveTask.
  rewrite removal_guard_passes by (auto; lia).
  rewrite Hfirst, Hw. simpl bind. rewrite (load_at _ _ _ Hc0 Hdc). simpl bind.
  rewrite Hnc. apply N.eqb_neq in Hpf as Hpf'. rewrite Hpf'.
  rewrite (load_at _ _ _ Hp0 Hdp). simpl bind.
  rewrite (store_at _ _ _ dc Hc0 Hdc). simpl bind.
  eexists. split; [reflexivity|]. unfold next_of. simpl.
  rewrite lookup_insert_eq, Hdp. simpl.
  assert (Hcp : c ≠ p) by (intros ->; apply (Hdisj p); [apply elem_of_app; right|]; left).
  split; [|split; [reflexivity|split; [|split; [reflexivity|split; [exact Hfirst|]]]]].
  - unfold ring. simpl. split; [destruct pre; discriminate|]. split; [|split].
    + replace (pre ++ c :: post) with ((pre ++ [c]) ++ post)
        by (rewrite <- app_assoc; reflexivity).
      apply NoDup_app. split; [exact Hn1|]. split.
      * intros x Hx Hx'. apply (Hdisj x Hx). right. exact Hx'.
      * apply NoDup_cons in Hn2 as [_ H]. exact H.
    + rewrite Hfirst. destruct pre; reflexivity.
    + assert (Hhd' : hd NULL (pre ++ c :: post) = hd c pre) by (destruct pre; reflexivity).
      rewrite Hhd'. apply chain_app. apply chain_app in Hpre as (Hpre & _). simpl hd in Hpre.
      split.
      * eapply chain_frame; [|exact Hpre]. intros q dq Hq Hdq. exists dq.
        rewrite lookup_insert_ne; [auto|].
        intros ->. apply NoDup_app in Hn1 as (_ & Hd1 & _). apply (Hd1 q Hq). left.
      * simpl. split; [exact Hc0|]. split.
        -- exists (set_pTaskNext (pTaskNext dp) dc). rewrite lookup_insert_eq. auto.
        -- eapply chain_frame; [|exact Hpost]. intros q dq Hq Hdq. exists dq.
           rewrite lookup_insert_ne; [auto|].
           intros ->. apply (Hdisj q); [apply elem_of_app; right; left | right; exact Hq].
  - unfold MAX_TASKS_NUMBER in Hn. apply wrap8_small. lia.
  - intros q Hq. apply lookup_insert_ne. congruence.
Qed.

Lemma removal_unlinks_witness :
  exists s s',
    run 3 (Init :: register_all [1%N; 2%N; 3%N] 7 100 uKernel_SCHEDULED) (boot (slots 3)) = Ok s /\
    uKernelRemoveTask 2 2 s = Ok (true, s') /\
    ring s' [1%N; 3%N] /\ next_of s' 1 = Some 3%N /\ _numberTasks s' = 2.
Proof.
  destruct (register_all_from_boot 3 (slots 3) [1%N; 2%N; 3%N] 7 100 uKernel_SCHEDULED)
    as (s & E & Hr & Hc & Hn).
  - discriminate.
  - distinct.
  - distinct.
  - intros p Hp. rewrite !elem_of_cons, elem_of_nil in Hp.
    destruct Hp as [->|[->|[->|[]]]]; vm_compute; eauto.
  - discriminate.
  - simpl; lia.
  - simpl; lia.
  - assert (Hi : _initialized s = true) by (vm_compute in E; injection E as <-; reflexivity).
    destruct (removal_unlinks 2 s [] [3%N] 1 2 Hr Hi) as (s' & E' & Hr' & Hx & Hn' & _).
    + rewrite Hn. simpl. unfold MAX_TASKS_NUMBER. lia.
    + simpl; lia.
    + exists s, s'. split; [exact E|]. split; [exact E'|]. split; [exact Hr'|].
      split; [|rewrite Hn', Hn; reflexivity].
      rewrite Hx. vm_compute in E. injection E as <-. vm_compute. reflexivity.
Defined.

(** In a ring, a walk that looks for the predecessor of a descriptor that is
    no member goes round for ever. *)
Lemma walk_absent m l p : forall fuel w,
  chain m l (hd NULL l) -> l ≠ [] -> w ∈ l -> p ∉ l -> walk fuel m w p = Timeout.
Proof.
  induction fuel as [|fuel IH]; intros w Hch Hne Hw Hp; [reflexivity|].
  simpl. destruct (chain_lookup m l _ w Hch Hw) as (Hw0 & d & Hd & _ & Hn).
  rewrite (load_at _ _ _ Hw0 Hd). simpl.
  assert (Hin : pTaskNext d ∈ l).
  { destruct Hn as [Hn|Hn]; [exact Hn|]. rewrite Hn. destruct l; [contradiction | left]. }
  assert (Hne' : pTaskNext d ≠ p) by (intros E; apply Hp; rewrite <- E; exact Hin).
  apply N.eqb_neq in Hne'. rewrite Hne'. apply IH; auto.
Qed.

(** X5.  [uKernelRemoveTask] has no answer for a descriptor that is not in
    the ring: the walk for its predecessor never ends, whatever the fuel. *)
Theorem removal_of_non_member_never_returns (s : kernel) (l : list N) (p : N) :
  ring s l -> p ∉ l -> p ≠ NULL ->
  _initialized s = true -> _numberTasks s ≠ 0 ->
  forall fuel, uKernelRemoveTask fuel p s = Timeout.
Proof.
  intros (Hne & Hnd & Hfirst & Hch) Hp Hp0 Hi Hn fuel.
  unfold uKernelRemoveTask. rewrite removal_guard_passes by auto.
  rewrite (walk_absent (mem s) l p fuel); auto.
  rewrite Hfirst. destruct l; [contradiction | left].
Qed.

Lemma removal_of_non_member_never_returns_witness :
  exists s, run 3 (Init :: register_all [1%N; 2%N] 7 100 uKernel_SCHEDULED) (boot (slots 3)) = Ok s /\
            forall fuel, uKernelRemoveTask fuel 3 s = Timeout.
Proof.
  destruct (register_all_from_boot 3 (slots 3) [1%N; 2%N] 7 100 uKernel_SCHEDULED)
    as (s & E & Hr & Hc & Hn).
  - discriminate.
  - distinct.
  - distinct.
  - intros p Hp. rewrite !elem_of_cons, elem_of_nil in Hp.
    destruct Hp as [->|[->|[]]]; vm_compute; eauto.
  - discriminate.
  - simpl; lia.
  - simpl; lia.
  - exists s. split; [exact E|].
    apply (removal_of_non_member_never_returns s [1%N; 2%N] 3 Hr).
    + distinct.
    + discriminate.
    + vm_compute in E. injection E as <-. reflexivity.
    + rewrite Hn. discriminate.
Defined.

(** Removal of the head of a ring. *)
Lemma uKernelRemoveTask_head (fuel : nat) (s : kernel) (h : N) (rest : list N) :
  ring s (h :: rest) ->
  _initialized s = true -> 0 < _numberTasks s <= MAX_TASKS_NUMBER ->
  (length rest < fuel)%nat ->
  uKernelRemoveTask fuel h s =
    Ok (true, set_numberTasks (_numberTasks s - 1) (set_pTaskFirst (hd h rest) s)) /\
  next_of s (List.last rest h) = Some h.
Proof.
  intros (Hne & Hnd & Hfirst & Hch) Hi Hn Hfuel. simpl in Hfirst, Hch.
  destruct (snoc_of_cons h rest) as (a & c & E).
  assert (Hlast : List.last rest h = c).
  { assert (H : List.last (h :: rest) h = c) by (rewrite E; apply last_last).
    destruct rest; simpl in H |- *; exact H. }
  assert (Hhd : hd c a = h) by (destruct a; simpl in E; injection E; auto).
  assert (Hch' : chain (mem s) (a ++ [c]) h) by (rewrite <- E; simpl; exact Hch).
  assert (Hw : walk fuel (mem s) h h = Ok c).
  { rewrite <- Hhd at 1. apply walk_chain; [exact Hch' | |].
    - rewrite <- E. simpl. apply NoDup_cons in Hnd as [H _]. exact H.
    - rewrite <- E. simpl. lia. }
  apply chain_app in Hch' as (_ & Hc). simpl in Hc.
  destruct Hc as (Hc0 & (dc & Hdc & _ & Hnc) & _).
  destruct Hch as (Hh0 & (dh & Hdh & _ & Hnh) & _).
  split.
  - unfold uKernelRemoveTask. rewrite removal_guard_passes by (auto; lia).
    rewrite Hfirst, Hw. simpl bind. rewrite (load_at _ _ _ Hc0 Hdc). simpl bind.
    rewrite Hnc, N.eqb_refl. rewrite (load_at _ _ _ Hh0 Hdh). simpl bind.
    rewrite Hnh. unfold MAX_TASKS_NUMBER in Hn. rewrite wrap8_small by lia.
    reflexivity.
  - rewrite Hlast. unfold next_of. rewrite Hdc. simpl. rewrite Hnc. reflexivity.
Qed.

(** X6.  Removing the head of a ring, of whatever size, writes no descriptor:
    the call moves [pTaskFirst] to the successor of the head and counts one
    task less, and the last descriptor still points to the removed head.
    When the head is the only task its successor is itself, and
    [pTaskFirst] stays on the removed descriptor. *)
Theorem removal_of_head (fuel : nat) (s : kernel) (h : N) (rest : list N) :
  ring s (h :: rest) ->
  _initialized s = true -> 0 < _numberTasks s <= MAX_TASKS_NUMBER ->
  (length rest < fuel)%nat ->
  uKernelRemoveTask fuel h s =
    Ok (true, set_numberTasks (_numberTasks s - 1) (set_pTaskFirst (hd h rest) s)) /\
  next_of s (List.last rest h) = Some h.
Proof. exact (uKernelRemoveTask_head fuel s h rest). Qed.

Lemma removal_of_head_witness :
  exists s,
    run 3 (Init :: register_all [1%N] 7 100 uKernel_SCHEDULED) (boot (slots 3)) = Ok s /\
    uKernelRemoveTask 1 1 s = Ok (true, set_numberTasks 0 s) /\
    pTaskFirst s = 1%N /\ next_of s 1 = Some 1%N.
Proof.
  destruct (register_all_from_boot 3 (slots 3) [1%N] 7 100 uKernel_SCHEDULED)
    as (s & E & Hr & Hc & Hn).
  - discriminate.
  - distinct.
  - distinct.
  - intros p Hp. rewrite !elem_of_cons, elem_of_nil in Hp.
    destruct Hp as [->|[]]; vm_compute; eauto.
  - discriminate.
  - simpl; lia.
  - simpl; lia.
  - assert (Hi : _initialized s = true) by (vm_compute in E; injection E as <-; reflexivity).
    destruct (removal_of_head 1 s 1 [] Hr Hi) as (Hx & Hy).
    + rewrite Hn. simpl. unfold MAX_TASKS_NUMBER. lia.
    + simpl; lia.
    + exists s. split; [exact E|]. simpl in Hx, Hy. split; [|split; [|exact Hy]].
      * rewrite Hx, Hn. destruct Hr as (_ & _ & Hf & _). simpl in Hf.
        destruct s; simpl in *. subst. reflexivity.
      * destruct Hr as (_ & _ & Hf & _). exact Hf.
Defined.

(** X7.  A removed sole task comes back with the next registration.  With
    [p] the only task, [uKernelRemoveTask] of [p] leaves [pTaskFirst] and
    [pTaskSchedule] on [p]; the registration of another descriptor [q] then
    finds a ring with a member and appends [q] behind [p]: the ring is
    [p], [q] with the dispatch cursor on [p], and the count is 1. *)
Theorem removed_sole_task_is_relinked (fuel : nat) (s : kernel) (p q : N) (f : fnptr)
    (i st : Z) (d0 : uKernelTaskDescriptor) :
  ring s [p] -> pTaskSchedule s = p -> _initialized s = true -> _numberTasks s = 1 ->
  q ≠ p -> q ≠ NULL -> mem s !! q = Some d0 -> f ≠ NULL -> (1 <= fuel)%nat ->
  exists s1 s2,
    uKernelRemoveTask fuel p s = Ok (true, s1) /\ _numberTasks s1 = 0 /\
    uKernelAddTask fuel q f i st s1 = Ok (true, s2) /\
    ring s2 [p; q] /\ pTaskSchedule s2 = p /\ _numberTasks s2 = 1.
Proof.
  intros Hr Hcur Hi Hn Hqp Hq Hd0 Hf Hfuel.
  destruct (uKernelRemoveTask_head fuel s p [] Hr Hi) as (E1 & _);
    [rewrite Hn; unfold MAX_TASKS_NUMBER; lia | simpl; lia |].
  simpl hd in E1. rewrite Hn in E1. simpl in E1.
  set (s1 := set_numberTasks 0 (set_pTaskFirst p s)) in *.
  assert (Hr1 : ring s1 [p]).
  { destruct Hr as (H1 & H2 & H3 & H4).
    split; [exact H1|]. split; [exact H2|]. split; [reflexivity | exact H4]. }
  destruct (uKernelAddTask_appends fuel q f i st s1 [p] d0 Hr1)
    as (s2 & E2 & Hr2 & Hc2 & Hn2 & _).
  - simpl. rewrite Hcur. left.
  - intros H. apply list_elem_of_singleton in H. contradiction.
  - exact Hi.
  - simpl. unfold MAX_TASKS_NUMBER. lia.
  - exact Hf.
  - exact Hq.
  - exact Hd0.
  - simpl. lia.
  - exists s1, s2. split; [exact E1|]. split; [reflexivity|]. split; [exact E2|].
    split; [exact Hr2|]. split; [rewrite Hc2; exact Hcur | exact Hn2].
Qed.

Lemma removed_sole_task_is_relinked_witness :
  exists s s1 s2,
    run 3 (Init :: register_all [1%N] 7 100 uKernel_SCHEDULED) (boot (slots 3)) = Ok s /\
    uKernelRemoveTask 1 1 s = Ok (true, s1) /\
    uKernelAddTask 1 2 8 100 uKernel_SCHEDULED s1 = Ok (true, s2) /\
    ring s2 [1%N; 2%N] /\ pTaskSchedule s2 = 1%N /\ _numberTasks s2 = 1.
Proof.
  destruct (register_all_from_boot 3 (slots 3) [1%N] 7 100 uKernel_SCHEDULED)
    as (s & E & Hr & Hc & Hn).
  - discriminate.
  - distinct.
  - distinct.
  - intros p Hp. rewrite !elem_of_cons, elem_of_nil in Hp.
    destruct Hp as [->|[]]; vm_compute; eauto.
  - discriminate.
  - simpl; lia.
  - simpl; lia.
  - assert (Hs : s = Kernel true 0 1 1 1
                       (<[1%N := TaskDescriptor 7 100 100 uKernel_SCHEDULED 1]> (slots 3)) [])
      by (vm_compute in E; injection E as <-; reflexivity).
    destruct (removed_sole_task_is_relinked 1 s 1 2 8 100 uKernel_SCHEDULED blank Hr Hc)
      as (s1 & s2 & E1 & _ & E2 & Hr2 & Hc2 & Hn2).
    + rewrite Hs. reflexivity.
    + exact Hn.
    + discriminate.
    + discriminate.
    + rewrite Hs. vm_compute. reflexivity.
    + discriminate.
    + lia.
    + exists s, s1, s2. auto 10.
Defined.

(** ** The dispatch loop on a ring *)

Lemma chain_next m stop : forall l j p,
  chain m l stop -> l !! j = Some p ->
  p ≠ NULL /\ exists d, m !! p = Some d /\ taskPointer d ≠ NULL /\
                        pTaskNext d = default stop (l !! S j).
Proof.
  induction l as [|x l IH]; intros j p Hch Hj; [discriminate|].
  simpl in Hch. destruct Hch as (Hx & (d & Hd & Hb & Hn) & Hch).
  destruct j as [|j]; simpl in Hj.
  - injection Hj as <-. split; [exact Hx|]. exists d. repeat split; auto.
    rewrite Hn. destruct l; reflexivity.
  - apply (IH j p Hch Hj).
Qed.

Lemma chain_insert m l stop p d d' :
  m !! p = Some d -> pTaskNext d' = pTaskNext d -> taskPointer d' = taskPointer d ->
  chain m l stop -> chain (<[p := d']> m) l stop.
Proof.
  intros Hd Hn Hb. apply chain_frame. intros q dq _ Hdq.
  destruct (decide (q = p)) as [->|Hne].
  - rewrite lookup_insert_eq. exists d'. rewrite Hd in Hdq. injection Hdq as <-. auto.
  - rewrite lookup_insert_ne by congruence. eauto.
Qed.

Lemma wdts_app t1 t2 : wdts (t1 ++ t2) = (wdts t1 + wdts t2)%nat.
Proof. induction t1 as [|[|] t1 IH]; simpl; auto. Qed.

(** One turn of the loop on a ring: the cursor moves to the next member in
    ring order, the ring, the head, the count and the clock stay, and the
    watchdog is served once. *)
Lemma turn_on_ring s l j :
  ring s l -> l !! j = Some (pTaskSchedule s) -> _numberTasks s ≠ 0 ->
  exists s', uKernelScheduler_body s = Ok s' /\ ring s' l /\
    l !! (S j mod length l)%nat = Some (pTaskSchedule s') /\
    _numberTasks s' = _numberTasks s /\ _counterMs s' = _counterMs s /\
    wdts (trace s') = S (wdts (trace s)).
Proof.
  intros (Hne & Hnd & Hfirst & Hch) Hj Hn.
  destruct (chain_next _ _ _ _ _ Hch Hj) as (Hp & d & Hd & Hb & Hnx).
  assert (Hidx : l !! (S j mod length l)%nat = Some (pTaskNext d)).
  { rewrite Hnx. apply lookup_lt_Some in Hj as Hlt.
    destruct (decide (S j < length l)%nat) as [Hin|Hout].
    - rewrite Nat.mod_small by exact Hin.
      destruct (lookup_lt_is_Some_2 l (S j) Hin) as (x & Hx). rewrite Hx. reflexivity.
    - assert (S j = length l) by lia.
      rewrite H, Nat.Div0.mod_same. rewrite (lookup_ge_None_2 l (length l)) by lia.
      destruct l; [contradiction | reflexivity]. }
  rewrite (uKernelScheduler_body_at s d Hp Hn Hd Hb).
  destruct ((taskStatus d >? uKernel_PAUSED) && due (_counterMs s) (plannedTask d)).
  - destruct (Z.land (taskStatus d) uKernel_ONETIME =? 0);
      (eexists; split; [reflexivity|]; simpl;
       split; [repeat split; auto; apply chain_insert with (d := d); auto|];
       split; [exact Hidx|]; split; [reflexivity|]; split; [reflexivity|];
       rewrite !wdts_app; simpl; lia).
  - eexists. split; [reflexivity|]. simpl.
    split; [repeat split; auto|]. split; [exact Hidx|].
    split; [reflexivity|]. split; [reflexivity|]. rewrite wdts_app. simpl. lia.
Qed.

(** X8.  Round robin.  On a ring [l] with at least one counted task, [k]
    turns of the dispatch loop move the cursor [k] places on in ring order,
    wrapping round at the end: from the member at index [j] to the member at
    index [(j + k) mod length l].  The ring, the count and the clock are as
    before, and the watchdog was served [k] times. *)
Theorem dispatch_round_robin (k : nat) (s : kernel) (l : list N) (j : nat) :
  ring s l -> l !! j = Some (pTaskSchedule s) -> _numberTasks s ≠ 0 ->
  exists s', uKernelScheduler k s = Ok s' /\ ring s' l /\
    l !! ((j + k) mod length l)%nat = Some (pTaskSchedule s') /\
    _numberTasks s' = _numberTasks s /\ _counterMs s' = _counterMs s /\
    wdts (trace s') = (wdts (trace s) + k)%nat.
Proof.
  revert s j. induction k as [|k IH]; intros s j Hr Hj Hn.
  - exists s. simpl. split; [reflexivity|]. split; [exact Hr|].
    apply lookup_lt_Some in Hj as Hlt.
    rewrite Nat.add_0_r, Nat.mod_small by exact Hlt. auto.
  - destruct (turn_on_ring s l j Hr Hj Hn) as (s1 & E1 & Hr1 & Hj1 & Hn1 & Hc1 & Hw1).
    destruct (IH s1 (S j mod length l)%nat Hr1 Hj1) as (s' & E & Hr' & Hj' & Hn' & Hc' & Hw').
    + rewrite Hn1. exact Hn.
    + exists s'. simpl. rewrite E1. simpl. split; [exact E|]. split; [exact Hr'|].
      split; [|split; [congruence|split; [congruence|lia]]].
      rewrite <- Hj'. f_equal.
      rewrite Nat.Div0.add_mod_idemp_l. f_equal. lia.
Qed.

Lemma dispatch_round_robin_witness :
  exists s s',
    run 3 (Init :: register_all [1%N; 2%N; 3%N] 7 100 uKernel_SCHEDULED) (boot (slots 3)) = Ok s /\
    uKernelScheduler 7 s = Ok s' /\ pTaskSchedule s' = 2%N /\ wdts (trace s') = 7%nat.
Proof.
  destruct (register_all_from_boot 3 (slots 3) [1%N; 2%N; 3%N] 7 100 uKernel_SCHEDULED)
    as (s & E & Hr & Hc & Hn).
  - discriminate.
  - distinct.
  - distinct.
  - intros p Hp. rewrite !elem_of_cons, elem_of_nil in Hp.
    destruct Hp as [->|[->|[->|[]]]]; vm_compute; eauto.
  - discriminate.
  - simpl; lia.
  - simpl; lia.
  - destruct (dispatch_round_robin 7 s [1%N; 2%N; 3%N] 0 Hr) as (s' & E' & _ & Hj & _ & _ & Hw).
    + rewrite Hc. reflexivity.
    + rewrite Hn. discriminate.
    + exists s, s'. split; [exact E|]. split; [exact E'|]. simpl in Hj.
      split; [injection Hj; auto|].
      rewrite Hw. vm_compute in E. injection E as <-. reflexivity.
Defined.

(** One turn of the loop, whatever there is to examine: it ends with the
    watchdog and calls at most the task body under the cursor before. *)
Lemma turn_trace R s :
  ring_closed R s ->
  exists s', uKernelScheduler_body s = Ok s' /\ ring_closed R s' /\
    (trace s' = trace s ++ [Wdt] \/
     exists d, mem s !! pTaskSchedule s = Some d /\
               trace s' = trace s ++ [Call (pTaskSchedule s) (taskPointer d); Wdt]).
Proof.
  intros HR. pose proof HR as (H0 & Hc & Hall).
  destruct (decide (_numberTasks s = 0)) as [Hz|Hnz].
  { exists (emit Wdt s). split; [apply uKernelScheduler_body_idle; auto|]. split; [exact HR|].
    left. reflexivity. }
  destruct Hc as [Hnull|Hin].
  { exists (emit Wdt s). split; [apply uKernelScheduler_body_idle; auto|]. split; [exact HR|].
    left. reflexivity. }
  destruct (Hall _ Hin) as (d & Hd & Hn & Hb).
  destruct (uKernelScheduler_body_on R s (pTaskSchedule s) d HR Hin Hd)
    as (s' & E & HR' & [(_ & _ & Ht & _)|(Hnv & _)]).
  - exists s'. split; [exact E|]. split; [exact HR'|]. right. exists d. auto.
  - exists s'. split; [exact E|]. split; [exact HR'|]. left.
    assert (Hq : pTaskSchedule s ≠ NULL) by (intros Eq; apply H0; rewrite <- Eq; exact Hin).
    rewrite (uKernelScheduler_body_at s d Hq Hnz Hd Hb) in E.
    destruct ((taskStatus d >? uKernel_PAUSED) && due (_counterMs s) (plannedTask d)) eqn:Hcond.
    + exfalso. apply Hnv. apply andb_true_iff in Hcond as (H1 & H2).
      apply Z.gtb_lt in H1. repeat split; auto.
    + injection E as <-. reflexivity.
Qed.

(** X9.  Each turn of the dispatch loop serves the watchdog exactly once and
    calls at most one task body: on a well-formed ring, as on an empty one,
    [k] turns go through, add [k] watchdog events to the trace and at most
    [k] calls. *)
Theorem watchdog_once_per_turn (k : nat) (R : gset N) (s : kernel) :
  ring_closed R s ->
  exists s' evs, uKernelScheduler k s = Ok s' /\ trace s' = trace s ++ evs /\
    wdts evs = k /\ (length evs <= 2 * k)%nat.
Proof.
  revert s. induction k as [|k IH]; intros s HR.
  - exists s, []. simpl. rewrite app_nil_r. auto.
  - destruct (turn_trace R s HR) as (s1 & E1 & HR1 & Ht).
    destruct (IH s1 HR1) as (s' & evs & E & Ht' & Hw & Hl).
    simpl. rewrite E1. simpl.
    destruct Ht as [Ht|(d & _ & Ht)]; rewrite Ht, <- app_assoc in Ht'.
    + exists s', ([Wdt] ++ evs). split; [exact E|]. split; [exact Ht'|].
      simpl. split; [congruence | lia].
    + eexists s', (_ ++ evs). split; [exact E|]. split; [exact Ht'|].
      simpl. split; [congruence | lia].
Qed.

Lemma watchdog_once_per_turn_witness :
  exists s' evs, uKernelScheduler 5 one_shot_host = Ok s' /\
    trace s' = trace one_shot_host ++ evs /\ wdts evs = 5%nat /\ (length evs <= 10)%nat.
Proof.
  apply (watchdog_once_per_turn 5 {[1%N]} one_shot_host).
  split; [vm_compute; set_solver|]. split; [right; vm_compute; set_solver|].
  intros q Hq. apply elem_of_singleton in Hq as ->.
  exists (TaskDescriptor 7 2 2 uKernel_ONETIME 1).
  split; [vm_compute; reflexivity|]. split; [simpl; set_solver | vm_compute; discriminate].
Defined.

(** X10.  A paused task is never run: while no call of the host changes its
    status, any sequence of timer ticks and turns of the dispatch loop leaves
    its descriptor as it is and does not call its body. *)
Theorem paused_task_is_never_called (fuel : nat) (R : gset N) (s : kernel) (p : ptr)
    (d : uKernelTaskDescriptor) (prog : list action) :
  ring_closed R s -> p ∈ R -> mem s !! p = Some d -> taskStatus d = uKernel_PAUSED ->
  Forall passive prog ->
  exists s', run fuel prog s = Ok s' /\ mem s' !! p = Some d /\
             calls p (trace s') = calls p (trace s).
Proof.
  intros HR Hin Hd Hst Hpas.
  destruct (paused_stays_paused fuel R p d prog s HR Hin Hd Hst Hpas) as (s' & E & _ & H).
  exists s'. split; [exact E | exact H].
Qed.

Lemma paused_task_is_never_called_witness :
  exists s', run 8 [Dispatch; Tick; Tick; Tick; Dispatch; Dispatch] paused_host = Ok s' /\
             status_of s' 1 = Some uKernel_PAUSED /\ calls 1 (trace s') = 0%nat.
Proof.
  destruct (paused_task_is_never_called 8 {[1%N]} paused_host 1
              (TaskDescriptor 7 2 2 uKernel_PAUSED 1)
              [Dispatch; Tick; Tick; Tick; Dispatch; Dispatch]) as (s' & E & Hd & Hc).
  - split; [vm_compute; set_solver|]. split; [right; vm_compute; set_solver|].
    intros q Hq. apply elem_of_singleton in Hq as ->.
    exists (TaskDescriptor 7 2 2 uKernel_PAUSED 1).
    split; [vm_compute; reflexivity|]. split; [simpl; set_solver | vm_compute; discriminate].
  - set_solver.
  - vm_compute; reflexivity.
  - reflexivity.
  - repeat constructor; (left; reflexivity) || (right; reflexivity).
  - exists s'. split; [exact E|]. unfold status_of. rewrite Hd. split; [reflexivity|].
    rewrite Hc. reflexivity.
Defined.

(** ** Due times across the wrap of the tick counter *)

Lemma signed_unique x y :
  - 2 ^ 31 <= x < 2 ^ 31 -> - 2 ^ 31 <= y < 2 ^ 31 -> (x - y) mod 2 ^ 32 = 0 -> x = y.
Proof.
  intros Hx Hy H. pose proof (Z.div_mod (x - y) (2 ^ 32) ltac:(lia)) as E.
  rewrite H in E. lia.
Qed.

(** [k] ticks after a moment [c], a task planned [i] ticks after [c] is due
    exactly when [k] has reached [i], wherever the counter wraps. *)
Lemma due_after c i k :
  0 <= i < 2 ^ 31 -> 0 <= k < 2 ^ 31 ->
  due (wrap32 (c + k)) (wrap32 (c + i)) = (i <=? k).
Proof.
  intros Hi Hk. unfold due.
  destruct (signed_difference (wrap32 (c + k)) (wrap32 (c + i))) as (Hr & Hm).
  assert (E : to_int32 (wrap32 (wrap32 (c + k) - wrap32 (c + i))) = k - i).
  { apply signed_unique; [exact Hr | lia |].
    unfold wrap32 in *.
    pose proof (Z.div_mod (c + k) (2 ^ 32) ltac:(lia)) as E1.
    pose proof (Z.div_mod (c + i) (2 ^ 32) ltac:(lia)) as E2.
    set (D := to_int32 (((c + k) mod 2 ^ 32 - (c + i) mod 2 ^ 32) mod 2 ^ 32)) in *.
    pose proof (Z.div_mod (D - ((c + k) mod 2 ^ 32 - (c + i) mod 2 ^ 32)) (2 ^ 32) ltac:(lia)) as E3.
    rewrite Hm in E3.
    replace (D - (k - i)) with
      ((((D - ((c + k) mod 2 ^ 32 - (c + i) mod 2 ^ 32)) / 2 ^ 32)
        - (c + k) / 2 ^ 32 + (c + i) / 2 ^ 32) * 2 ^ 32) by lia.
    apply Z_mod_mult. }
  rewrite E. destruct (Z.leb_spec 0 (k - i)), (Z.leb_spec i k); auto; lia.
Qed.

Lemma ticks_frame k : forall s,
  mem (ticks k s) = mem s /\ trace (ticks k s) = trace s /\
  _numberTasks (ticks k s) = _numberTasks s /\ pTaskSchedule (ticks k s) = pTaskSchedule s /\
  pTaskFirst (ticks k s) = pTaskFirst s /\ _initialized (ticks k s) = _initialized s.
Proof.
  induction k as [|k IH]; intros s; simpl; [auto 10|].
  destruct (IH (tick s)) as (H1 & H2 & H3 & H4 & H5 & H6). auto 10.
Qed.

Lemma ticks_counter k : forall s,
  uint32 (_counterMs s) -> _counterMs (ticks k s) = wrap32 (_counterMs s + Z.of_nat k).
Proof.
  unfold uint32. induction k as [|k IH]; intros s Hc.
  - simpl. rewrite Z.add_0_r, wrap32_small; auto.
  - simpl ticks. rewrite IH.
    + unfold tick, wrap32. simpl _counterMs. rewrite Zplus_mod_idemp_l. f_equal. lia.
    + unfold tick, wrap32. simpl. apply Z.mod_pos_bound. lia.
Qed.

Lemma registered_interval_range i : 1 <= registered_interval i <= MAX_TASK_INTERVAL.
Proof.
  unfold registered_interval, MAX_TASK_INTERVAL.
  destruct (Z.ltb_spec i 1), (Z.gtb_spec i 3600000); simpl; lia.
Qed.

Lemma first_delay_range i st : 0 <= first_delay i st < 2 ^ 31.
Proof.
  unfold first_delay. pose proof (registered_interval_range i) as H.
  unfold MAX_TASK_INTERVAL in H. destruct (Z.land _ 4 =? 0); lia.
Qed.

(** What a successful registration writes, with the due time. *)
Lemma uKernelAddTask_written fuel p f i st s s' :
  uKernelAddTask fuel p f i st s = Ok (true, s') -> p ≠ NULL ->
  _counterMs s' = _counterMs s /\
  exists n,
    mem s' !! p = Some (TaskDescriptor f (registered_interval i)
                          (wrap32 (_counterMs s + first_delay i st))
                          (Z.land (if st >? uKernel_ONETIME_IMMEDIATESTART
                                   then uKernel_SCHEDULED else st) 0x03) n).
Proof.
  unfold uKernelAddTask. intros H Hp.
  destruct (negb (_initialized s) || (_numberTasks s =? MAX_TASKS_NUMBER) || (f =? NULL)%N);
    [discriminate|].
  apply N.eqb_neq in Hp. rewrite Hp in H. simpl negb in H. cbv iota in H.
  fold (registered_interval i) in H. fold (first_delay i st) in H.
  apply bind_Ok in H as (s1 & H1 & H).
  assert (Hc1 : _counterMs s1 = _counterMs s).
  { destruct (negb (pTaskFirst s =? NULL)%N).
    - apply bind_Ok in H1 as (w & _ & H1). apply bind_Ok in H1 as (s0 & H0 & H1).
      apply store_frame in H0 as (_ & Ha & _). apply store_frame in H1 as (_ & Hb & _).
      congruence.
    - apply store_frame in H1 as (_ & Ha & _). exact Ha. }
  apply bind_Ok in H as (s2 & H2 & H).
  apply bind_Ok in H as (s3 & H3 & H).
  apply bind_Ok in H as (s4 & H4 & H).
  apply bind_Ok in H as (s5 & H5 & H).
  injection H as <-.
  apply store_frame in H2 as (_ & C2 & _ & _ & _ & _ & (d2 & _ & E2) & _).
  apply store_frame in H3 as (_ & C3 & _ & _ & _ & _ & (d3 & E3 & E3') & _).
  apply store_frame in H4 as (_ & C4 & _ & _ & _ & _ & (d4 & E4 & E4') & _).
  apply store_frame in H5 as (_ & C5 & _ & _ & _ & _ & (d5 & E5 & E5') & _).
  simpl. split; [congruence|]. rewrite E5'.
  rewrite E4' in E5. injection E5 as <-. rewrite E3' in E4. injection E4 as <-.
  rewrite E2 in E3. injection E3 as <-. rewrite Hc1.
  eexists. reflexivity.
Qed.

Lemma first_delay_cases (i st : Z) :
  (st <= uKernel_ONETIME_IMMEDIATESTART -> Z.land st 0x04 ≠ 0 -> first_delay i st = 0) /\
  (uKernel_ONETIME_IMMEDIATESTART < st \/ Z.land st 0x04 = 0 ->
   first_delay i st = registered_interval i).
Proof.
  unfold first_delay, uKernel_ONETIME_IMMEDIATESTART, uKernel_SCHEDULED.
  destruct (Z.gtb_spec st 7) as [Hgt|Hle]; split.
  - intros Hst. lia.
  - intros _. reflexivity.
  - intros _ Hbit. apply Z.eqb_neq in Hbit. rewrite Hbit. reflexivity.
  - intros [Hgt|Hbit]; [lia|]. rewrite Hbit. reflexivity.
Qed.

(** X11.  The first due time of a registered task.  When the status
    argument is at most 7 and carries the bit [0x04] of
    [uKernel_IMMEDIATESTART], the task is due from the registration on.
    Otherwise, that is without the bit, or with a status above 7 (such as
    [uKernel_ERROR]), which the registration first replaces by
    [uKernel_SCHEDULED], the task is due, [k] ticks after the registration,
    exactly when [k] has reached the normalised interval.  Both hold
    wherever the 32-bit tick counter wraps in between. *)
Theorem first_due_after_registration (fuel : nat) (p : ptr) (f : fnptr) (i st : Z)
    (s s1 : kernel) :
  uKernelAddTask fuel p f i st s = Ok (true, s1) -> p ≠ NULL -> uint32 (_counterMs s) ->
  exists d, mem s1 !! p = Some d /\
    (st <= uKernel_ONETIME_IMMEDIATESTART -> Z.land st 0x04 ≠ 0 ->
     forall k : nat, Z.of_nat k < 2 ^ 31 ->
       due (_counterMs (ticks k s1)) (plannedTask d) = true) /\
    (uKernel_ONETIME_IMMEDIATESTART < st \/ Z.land st 0x04 = 0 ->
     forall k : nat, Z.of_nat k < 2 ^ 31 ->
       due (_counterMs (ticks k s1)) (plannedTask d) = (registered_interval i <=? Z.of_nat k)).
Proof.
  intros H Hp Hc. destruct (uKernelAddTask_written _ _ _ _ _ _ _ H Hp) as (Hc1 & n & Hd).
  eexists. split; [exact Hd|].
  assert (Hdue : forall k : nat, Z.of_nat k < 2 ^ 31 ->
            due (_counterMs (ticks k s1)) (wrap32 (_counterMs s + first_delay i st))
            = (first_delay i st <=? Z.of_nat k)).
  { intros k Hk. rewrite ticks_counter by (rewrite Hc1; exact Hc). rewrite Hc1.
    apply due_after; [apply first_delay_range | lia]. }
  destruct (first_delay_cases i st) as (H0 & Hi). simpl plannedTask. split.
  - intros Hle Hbit k Hk. rewrite (Hdue k Hk), (H0 Hle Hbit). apply Z.leb_le. lia.
  - intros Hcase k Hk. rewrite (Hdue k Hk), (Hi Hcase). reflexivity.
Qed.

Lemma first_due_after_registration_witness :
  let s := set_counterMs (2 ^ 32 - 3) (uKernelInit (boot (slots 3))) in
  (exists s1 d,
     uKernelAddTask 0 1 7 10 uKernel_ERROR s = Ok (true, s1) /\
     mem s1 !! 1%N = Some d /\
     due (_counterMs (ticks 0 s1)) (plannedTask d) = false /\
     due (_counterMs (ticks 9 s1)) (plannedTask d) = false /\
     due (_counterMs (ticks 10 s1)) (plannedTask d) = true) /\
  (exists s1 d,
     uKernelAddTask 0 1 7 10 uKernel_IMMEDIATESTART s = Ok (true, s1) /\
     mem s1 !! 1%N = Some d /\
     due (_counterMs (ticks 0 s1)) (plannedTask d) = true).
Proof.
  intros s. split.
  - destruct (uKernelAddTask 0 1 7 10 uKernel_ERROR s) as [[b s1]| |] eqn:E;
      [|vm_compute in E; discriminate..].
    assert (Hb : b = true) by (vm_compute in E; congruence). subst b.
    destruct (first_due_after_registration 0 1 7 10 uKernel_ERROR s s1 E) as (d & Hd & _ & Hk).
    + discriminate.
    + unfold uint32. simpl. lia.
    + exists s1, d. split; [reflexivity|]. split; [exact Hd|].
      assert (Hc : uKernel_ONETIME_IMMEDIATESTART < uKernel_ERROR \/ Z.land uKernel_ERROR 4 = 0)
        by (left; reflexivity).
      split; [|split]; [apply (Hk Hc 0%nat) | apply (Hk Hc 9%nat) | apply (Hk Hc 10%nat)]; lia.
  - destruct (uKernelAddTask 0 1 7 10 uKernel_IMMEDIATESTART s) as [[b s1]| |] eqn:E;
      [|vm_compute in E; discriminate..].
    assert (Hb : b = true) by (vm_compute in E; congruence). subst b.
    destruct (first_due_after_registration 0 1 7 10 uKernel_IMMEDIATESTART s s1 E)
      as (d & Hd & Hk & _).
    + discriminate.
    + unfold uint32. simpl. lia.
    + exists s1, d. split; [reflexivity|]. split; [exact Hd|].
      apply (Hk ltac:(vm_compute; discriminate) ltac:(vm_compute; discriminate) 0%nat). lia.
Defined.

(** X12.  A periodic task is replanned from the turn that runs it.  A turn
    of the dispatch loop that finds a due task without the
    [uKernel_ONETIME] bit calls its body, keeps its status and interval, and
    plans it one interval after the present tick: [k] ticks later it is due
    again exactly when [k] has reached the interval. *)
Theorem periodic_task_is_replanned (s : kernel) (d : uKernelTaskDescriptor) :
  pTaskSchedule s ≠ NULL -> _numberTasks s ≠ 0 -> mem s !! pTaskSchedule s = Some d ->
  taskPointer d ≠ NULL -> uKernel_PAUSED < taskStatus d ->
  Z.land (taskStatus d) uKernel_ONETIME = 0 ->
  due (_counterMs s) (plannedTask d) = true ->
  uint32 (_counterMs s) -> 0 <= userTasksInterval d < 2 ^ 31 ->
  exists s' d',
    uKernelScheduler_body s = Ok s' /\
    trace s' = trace s ++ [Call (pTaskSchedule s) (taskPointer d); Wdt] /\
    mem s' !! pTaskSchedule s = Some d' /\
    taskStatus d' = taskStatus d /\ userTasksInterval d' = userTasksInterval d /\
    forall k : nat, Z.of_nat k < 2 ^ 31 ->
      due (_counterMs (ticks k s')) (plannedTask d') = (userTasksInterval d <=? Z.of_nat k).
Proof.
  intros Hp Hn Hd Hb Hst Hbit Hdue Hc Hi.
  rewrite (uKernelScheduler_body_at s d Hp Hn Hd Hb).
  apply Z.gtb_lt in Hst. rewrite Hst, Hdue, Hbit. simpl.
  eexists _, _. split; [reflexivity|]. simpl. rewrite <- app_assoc. simpl.
  split; [reflexivity|]. rewrite lookup_insert_eq. split; [reflexivity|].
  split; [reflexivity|]. split; [reflexivity|].
  intros k Hk. simpl plannedTask. rewrite ticks_counter by exact Hc. simpl _counterMs.
  apply due_after; [exact Hi | lia].
Qed.

Lemma periodic_task_is_replanned_witness :
  let s := Kernel true (2 ^ 32 - 2) 1 1 1
             {[ 1%N := TaskDescriptor 7 5 (2 ^ 32 - 4) uKernel_SCHEDULED 1 ]} [] in
  exists s' d',
    uKernelScheduler_body s = Ok s' /\ mem s' !! 1%N = Some d' /\
    due (_counterMs (ticks 4 s')) (plannedTask d') = false /\
    due (_counterMs (ticks 5 s')) (plannedTask d') = true.
Proof.
  intros s.
  destruct (periodic_task_is_replanned s (TaskDescriptor 7 5 (2 ^ 32 - 4) uKernel_SCHEDULED 1))
    as (s' & d' & E & _ & Hd & _ & _ & Hk).
  - discriminate.
  - discriminate.
  - reflexivity.
  - discriminate.
  - reflexivity.
  - reflexivity.
  - reflexivity.
  - unfold uint32. simpl. lia.
  - simpl. lia.
  - exists s', d'. split; [exact E|]. split; [exact Hd|].
    split; [apply (Hk 4%nat) | apply (Hk 5%nat)]; lia.
Defined.

(** ** Pause, resume and modify *)

Lemma status_guard_passes s (p : N) :
  _initialized s = true -> _numberTasks s ≠ MAX_TASKS_NUMBER -> p ≠ NULL ->
  negb (_initialized s) || (_numberTasks s =? MAX_TASKS_NUMBER) || (p =? NULL)%N = false.
Proof. intros. apply guard_false. auto. Qed.

(** X13.  Pausing writes the status and nothing else: the call answers true
    and stores [uKernel_PAUSED], keeping the due time, the interval, the task
    body and the link; the status query then answers [uKernel_PAUSED], and
    pausing once more is accepted and changes nothing. *)
Theorem pause_writes_status_only (s : kernel) (p : ptr) (d : uKernelTaskDescriptor) :
  _initialized s = true -> _numberTasks s ≠ MAX_TASKS_NUMBER -> p ≠ NULL ->
  mem s !! p = Some d ->
  let s' := set_mem (<[p := set_taskStatus uKernel_PAUSED d]> (mem s)) s in
  uKernelPauseTask p s = Ok (true, s') /\
  uKernelGetTaskStatus p s' = Ok uKernel_PAUSED /\
  uKernelPauseTask p s' = Ok (true, s').
Proof.
  intros Hi Hn Hp Hd s'.
  assert (Hd' : mem s' !! p = Some (set_taskStatus uKernel_PAUSED d))
    by (simpl; apply lookup_insert_eq).
  assert (G' : negb (_initialized s') || (_numberTasks s' =? MAX_TASKS_NUMBER) || (p =? NULL)%N
               = false) by (apply status_guard_passes; auto).
  split; [|split].
  - unfold uKernelPauseTask, uKernelSetTask.
    rewrite (status_guard_passes s p Hi Hn Hp), (store_at _ _ _ d Hp Hd). reflexivity.
  - unfold uKernelGetTaskStatus. rewrite G', (load_at _ _ _ Hp Hd'). reflexivity.
  - unfold uKernelPauseTask, uKernelSetTask.
    rewrite G', (store_at _ _ _ _ Hp Hd'). simpl bind.
    unfold s'. setters. rewrite insert_insert_eq. reflexivity.
Qed.

Lemma pause_writes_status_only_witness :
  exists s, run 3 (Init :: register_all [1%N; 2%N] 7 100 uKernel_SCHEDULED) (boot (slots 3)) = Ok s /\
    uKernelPauseTask 2 s =
      Ok (true, set_mem (<[2%N := TaskDescriptor 7 100 100 uKernel_PAUSED 1]> (mem s)) s).
Proof.
  eexists. split; [vm_compute; reflexivity|].
  apply (pause_writes_status_only _ 2 (TaskDescriptor 7 100 100 uKernel_SCHEDULED 1)).
  - reflexivity.
  - vm_compute; discriminate.
  - discriminate.
  - vm_compute; reflexivity.
Defined.



(** X15.  The status that [uKernelSetTask] (pause, resume) or
    [uKernelModifyTask] has stored is the one [uKernelGetTaskStatus] reads
    back. *)
Theorem stored_status_is_read_back (p : ptr) (i st : Z) (s s' : kernel) :
  uKernelSetTask p i st s = Ok (true, s') \/ uKernelModifyTask p i st s = Ok (true, s') ->
  uKernelGetTaskStatus p s' = Ok st.
Proof.
  assert (Hget : forall d, _initialized s = true -> _numberTasks s ≠ MAX_TASKS_NUMBER ->
            p ≠ NULL -> _initialized s' = _initialized s -> _numberTasks s' = _numberTasks s ->
            mem s' !! p = Some d -> taskStatus d = st -> uKernelGetTaskStatus p s' = Ok st).
  { intros d Hi Hn Hp Hi' Hn' Hd Hst. unfold uKernelGetTaskStatus.
    rewrite status_guard_passes by (auto; congruence).
    rewrite (load_at _ _ _ Hp Hd), <- Hst. reflexivity. }
  intros [H|H].
  - unfold uKernelSetTask in H.
    destruct (negb (_initialized s) || (_numberTasks s =? MAX_TASKS_NUMBER) || (p =? NULL)%N)
      eqn:G; [discriminate|]. apply guard_false in G as (Hi & Hn & Hp).
    apply bind_Ok in H as (s1 & H1 & H). apply bind_Ok in H as (s2 & H2 & H).
    injection H as <-.
    apply store_frame in H1 as (I1 & _ & N1 & _ & _ & _ & (d1 & _ & E1) & _).
    destruct (st =? uKernel_SCHEDULED).
    + destruct (i =? 0).
      * apply bind_Ok in H2 as (dx & _ & H2).
        apply store_frame in H2 as (I2 & _ & N2 & _ & _ & _ & (d2 & E2 & E2') & _).
        eapply Hget; [exact Hi|exact Hn|exact Hp|congruence|congruence|exact E2'|].
        rewrite E1 in E2. injection E2 as <-. reflexivity.
      * apply store_frame in H2 as (I2 & _ & N2 & _ & _ & _ & (d2 & E2 & E2') & _).
        eapply Hget; [exact Hi|exact Hn|exact Hp|congruence|congruence|exact E2'|].
        rewrite E1 in E2. injection E2 as <-. reflexivity.
    + injection H2 as <-. apply (Hget _ Hi Hn Hp I1 N1 E1). reflexivity.
  - unfold uKernelModifyTask in H.
    destruct (negb (_initialized s) || (_numberTasks s =? MAX_TASKS_NUMBER) || (p =? NULL)%N)
      eqn:G; [discriminate|]. apply guard_false in G as (Hi & Hn & Hp).
    destruct (st >? uKernel_ONETIME_IMMEDIATESTART); [discriminate|].
    apply bind_Ok in H as (s1 & H1 & H). apply bind_Ok in H as (s2 & H2 & H).
    apply bind_Ok in H as (s3 & H3 & H). injection H as <-.
    apply store_frame in H1 as (I1 & _ & N1 & _).
    apply store_frame in H2 as (I2 & _ & N2 & _ & _ & _ & (d2 & _ & E2) & _).
    assert (H3' : exists t, store p (set_plannedTask t) s2 = Ok s3)
      by (destruct ((st =? uKernel_SCHEDULED) || (st =? uKernel_ONETIME)); eauto).
    destruct H3' as (t & H3').
    apply store_frame in H3' as (I3 & _ & N3 & _ & _ & _ & (d3 & E3 & E3') & _).
    eapply Hget; [exact Hi|exact Hn|exact Hp|congruence|congruence|exact E3'|].
    rewrite E2 in E3. injection E3 as <-. reflexivity.
Qed.

Lemma stored_status_is_read_back_witness :
  let s := Kernel true 10 1 1 1 {[ 1%N := TaskDescriptor 7 3 40 uKernel_PAUSED 1 ]} [] in
  exists s', uKernelModifyTask 1 20 uKernel_IMMEDIATESTART s = Ok (true, s') /\
             uKernelGetTaskStatus 1 s' = Ok uKernel_IMMEDIATESTART.
Proof.
  intros s. eexists. split; [vm_compute; reflexivity|].
  apply (stored_status_is_read_back 1 20 uKernel_IMMEDIATESTART s).
  right. vm_compute. reflexivity.
Defined.

(** ** The task count *)

Lemma store_count q g s s' : store q g s = Ok s' -> _numberTasks s' = _numberTasks s.
Proof. intros H. apply store_frame in H as (_ & _ & H & _). exact H. Qed.

(** Take a C function apart, keeping track of the task count. *)
Ltac count_step :=
  match goal with
  | H : Ok _ = Ok _ |- _ => injection H as H; try subst
  | H : bind _ _ = Ok _ |- _ =>
      let s := fresh "s" in let E := fresh "E" in apply bind_Ok in H as (s & E & H)
  | H : (if ?c then _ else _) = Ok _ |- _ => destruct c eqn:?
  | H : store _ _ _ = Ok _ |- _ => apply store_count in H; simpl in H
  | H : call _ _ _ = Ok _ |- _ => unfold call in H
  end.

Lemma uKernelAddTask_count fuel p f i st s b s' :
  uKernelAddTask fuel p f i st s = Ok (b, s') ->
  _numberTasks s' = _numberTasks s \/
  (_numberTasks s ≠ MAX_TASKS_NUMBER /\ _numberTasks s' = wrap8 (_numberTasks s + 1)).
Proof.
  unfold uKernelAddTask. intros H.
  destruct (negb (_initialized s) || (_numberTasks s =? MAX_TASKS_NUMBER) || (f =? NULL)%N)
    eqn:G; [injection H as _ <-; left; reflexivity|].
  apply orb_false_iff in G as (G & _). apply orb_false_iff in G as (_ & G).
  apply Z.eqb_neq in G.
  repeat count_step; simpl; try (left; reflexivity);
    right; (split; [exact G|]); f_equal; congruence.
Qed.

Lemma uKernelRemoveTask_count fuel p s b s' :
  uKernelRemoveTask fuel p s = Ok (b, s') ->
  _numberTasks s' = _numberTasks s \/
  (_numberTasks s ≠ 0 /\ _numberTasks s' = wrap8 (_numberTasks s - 1)).
Proof.
  unfold uKernelRemoveTask. intros H.
  destruct (negb (_initialized s) || (_numberTasks s =? 0) || (p =? NULL)%N)
    eqn:G; [injection H as _ <-; left; reflexivity|].
  apply orb_false_iff in G as (G & _). apply orb_false_iff in G as (_ & G).
  apply Z.eqb_neq in G.
  repeat count_step; simpl; right; (split; [exact G|]); f_equal; congruence.
Qed.

Lemma uKernelSetTask_count p i st s b s' :
  uKernelSetTask p i st s = Ok (b, s') -> _numberTasks s' = _numberTasks s.
Proof. unfold uKernelSetTask. intros H. repeat count_step; simpl; congruence. Qed.

Lemma uKernelModifyTask_count p i st s b s' :
  uKernelModifyTask p i st s = Ok (b, s') -> _numberTasks s' = _numberTasks s.
Proof. unfold uKernelModifyTask. intros H. repeat count_step; simpl; congruence. Qed.

Lemma uKernelScheduler_body_count s s' :
  uKernelScheduler_body s = Ok s' -> _numberTasks s' = _numberTasks s.
Proof.
  unfold uKernelScheduler_body. intros H. repeat count_step; simpl in *; congruence.
Qed.

Lemma exec_count_moves fuel a s s' :
  exec fuel a s = Ok s' -> count_bounded s ->
  count_bounded s' /\ count_moves a (_numberTasks s) (_numberTasks s').
Proof.
  unfold count_bounded, MAX_TASKS_NUMBER.
  destruct a as [|q f i st|q|q|q st|q i st| |]; simpl; intros H Hb.
  - injection H as <-. simpl. lia.
  - apply bind_Ok in H as ([b s1] & E & [= <-]).
    apply uKernelAddTask_count in E as [E|(G & E)]; simpl; rewrite E; [lia|].
    unfold MAX_TASKS_NUMBER in G. rewrite wrap8_small; lia.
  - apply bind_Ok in H as ([b s1] & E & [= <-]).
    apply uKernelRemoveTask_count in E as [E|(G & E)]; simpl; rewrite E; [lia|].
    rewrite wrap8_small; lia.
  - apply bind_Ok in H as ([b s1] & E & [= <-]).
    apply uKernelSetTask_count in E. simpl. rewrite E. lia.
  - apply bind_Ok in H as ([b s1] & E & [= <-]).
    apply uKernelSetTask_count in E. simpl. rewrite E. lia.
  - apply bind_Ok in H as ([b s1] & E & [= <-]).
    apply uKernelModifyTask_count in E. simpl. rewrite E. lia.
  - injection H as <-. simpl. lia.
  - apply uKernelScheduler_body_count in H. rewrite H. lia.
Qed.

(** X16.  The task count never wraps.  From a count between 0 and 255,
    whatever the host calls, in whatever order, and whatever the timer and
    the dispatch loop do, every single step moves the count as an integer:
    [uKernelInit] sets it to 0, a registration leaves it or adds exactly
    one, a removal leaves it or takes exactly one off, and no other step
    changes it; and before and after every step it lies between 0 and 255.
    So the 8-bit counter neither goes from 255 to 0 by a registration nor
    from 0 to 255 by a removal. *)
Theorem task_count_stays_bounded (fuel : nat) (prog : list action) (s s' : kernel) :
  count_bounded s -> run fuel prog s = Ok s' ->
  count_bounded s' /\
  forall pre a post s1 s2,
    prog = pre ++ a :: post -> run fuel pre s = Ok s1 -> exec fuel a s1 = Ok s2 ->
    count_bounded s1 /\ count_bounded s2 /\
    count_moves a (_numberTasks s1) (_numberTasks s2).
Proof.
  revert s. induction prog as [|a prog IH]; intros s Hb H; simpl in H.
  - injection H as <-. split; [exact Hb|]. intros [|? ?] ? ? ? ? E; discriminate.
  - apply bind_Ok in H as (s1 & E & H).
    destruct (exec_count_moves fuel a s s1 E Hb) as (Hb1 & Hm).
    destruct (IH s1 Hb1 H) as (Hb' & Hsteps). split; [exact Hb'|].
    intros [|a' pre] a0 post t1 t2 Eq Hpre Hex.
    + simpl in Eq. injection Eq as <- <-. simpl in Hpre. injection Hpre as <-.
      rewrite E in Hex. injection Hex as <-. auto.
    + simpl in Eq. injection Eq as <- Eq. simpl in Hpre. rewrite E in Hpre. simpl in Hpre.
      exact (Hsteps pre a0 post t1 t2 Eq Hpre Hex).
Qed.

Lemma task_count_stays_bounded_witness :
  exists s1 s2 s',
    run 300 (Init :: fill 255) (boot (slots 255)) = Ok s1 /\ _numberTasks s1 = 255 /\
    exec 300 (AddTask 300 7 100 uKernel_SCHEDULED) s1 = Ok s2 /\ _numberTasks s2 = 255 /\
    run 300 (Init :: fill 255 ++ [AddTask 300 7 100 uKernel_SCHEDULED; RemoveTask 1;
                                  AddTask 1 7 100 uKernel_SCHEDULED; Dispatch])
      (boot (slots 255)) = Ok s' /\
    count_bounded s'.
Proof.
  destruct (run 300 (Init :: fill 255) (boot (slots 255))) as [s1| |] eqn:E1;
    [|vm_compute in E1; discriminate..].
  destruct (exec 300 (AddTask 300 7 100 uKernel_SCHEDULED) s1) as [s2| |] eqn:E2;
    [|vm_compute in E1; injection E1 as <-; vm_compute in E2; discriminate..].
  destruct (run 300 (Init :: fill 255 ++ [AddTask 300 7 100 uKernel_SCHEDULED; RemoveTask 1;
                                          AddTask 1 7 100 uKernel_SCHEDULED; Dispatch])
              (boot (slots 255))) as [s'| |] eqn:E; [|vm_compute in E; discriminate..].
  assert (Hn1 : _numberTasks s1 = 255) by (vm_compute in E1; injection E1 as <-; reflexivity).
  assert (Hb0 : count_bounded (boot (slots 255)))
    by (unfold count_bounded, MAX_TASKS_NUMBER; simpl; lia).
  destruct (task_count_stays_bounded 300 _ (boot (slots 255)) s' Hb0 E) as (Hb' & Hsteps).
  destruct (Hsteps (Init :: fill 255) (AddTask 300 7 100 uKernel_SCHEDULED)
              [RemoveTask 1; AddTask 1 7 100 uKernel_SCHEDULED; Dispatch] s1 s2)
    as (_ & Hb2 & Hm); [reflexivity | exact E1 | exact E2 |].
  exists s1, s2, s'. split; [reflexivity|]. split; [exact Hn1|]. split; [exact E2|].
  split; [|split; [reflexivity | exact Hb']].
  simpl in Hm. unfold count_bounded, MAX_TASKS_NUMBER in Hb2. lia.
Defined.

(** ** Refused calls *)

(** X17.  Before [uKernelInit] every call is refused: registration, removal,
    pause, resume and modification answer false, the status query answers
    [uKernel_ERROR], and none of them changes the state or reads a
    descriptor, whatever the arguments. *)
Theorem before_init_every_call_is_refused (fuel : nat) (s : kernel) (p : ptr) (f : fnptr)
    (i st : Z) :
  _initialized s = false ->
  uKernelAddTask fuel p f i st s = Ok (false, s) /\
  uKernelRemoveTask fuel p s = Ok (false, s) /\
  uKernelPauseTask p s = Ok (false, s) /\
  uKernelResumeTask p st s = Ok (false, s) /\
  uKernelModifyTask p i st s = Ok (false, s) /\
  uKernelGetTaskStatus p s = Ok uKernel_ERROR.
Proof.
  intros Hi.
  unfold uKernelAddTask, uKernelRemoveTask, uKernelPauseTask, uKernelResumeTask, uKernelSetTask,
    uKernelModifyTask, uKernelGetTaskStatus.
  rewrite Hi. simpl. auto 10.
Qed.

Lemma before_init_every_call_is_refused_witness :
  uKernelAddTask 8 1 7 100 uKernel_SCHEDULED (boot (slots 3)) = Ok (false, boot (slots 3)) /\
  uKernelRemoveTask 8 1 (boot (slots 3)) = Ok (false, boot (slots 3)) /\
  uKernelGetTaskStatus 1 (boot (slots 3)) = Ok uKernel_ERROR.
Proof.
  destruct (before_init_every_call_is_refused 8 (boot (slots 3)) 1 7 100 uKernel_SCHEDULED)
    as (H1 & H2 & _ & _ & _ & H3); [reflexivity|].
  auto.
Defined.

(** X18.  Capacity.  Once 255 descriptors are registered, every further
    registration is refused, whatever its arguments: the call answers false
    and the ring, the count and every descriptor are as before. *)
Theorem registration_256_is_refused (fuel : nat) (m : gmap N uKernelTaskDescriptor)
    (ps : list N) (f : fnptr) (i st : Z) :
  NoDup ps -> NULL ∉ ps -> (forall p, p ∈ ps -> is_Some (m !! p)) -> f ≠ NULL ->
  length ps = 255%nat -> (255 <= fuel)%nat ->
  exists s, run fuel (Init :: register_all ps f i st) (boot m) = Ok s /\ ring s ps /\
    forall fuel' p' f' i' st', uKernelAddTask fuel' p' f' i' st' s = Ok (false, s).
Proof.
  intros Hnd H0 Hall Hf Hlen Hfuel.
  destruct (register_all_from_boot fuel m ps f i st) as (s & E & Hr & _ & Hn); auto; try lia.
  { intros ->. discriminate. }
  exists s. split; [exact E|]. split; [exact Hr|].
  intros fuel' p' f' i' st'. unfold uKernelAddTask.
  assert (G : (_numberTasks s =? MAX_TASKS_NUMBER) = true)
    by (rewrite Hn, Hlen; reflexivity).
  rewrite G, orb_true_r. reflexivity.
Qed.

Lemma registration_256_is_refused_witness :
  exists s, run 255 (Init :: register_all (map N.of_nat (seq 1 255)) 7 100 uKernel_SCHEDULED)
              (boot (slots 256)) = Ok s /\
            uKernelAddTask 300 256 7 100 uKernel_SCHEDULED s = Ok (false, s).
Proof.
  destruct (registration_256_is_refused 255 (slots 256) (map N.of_nat (seq 1 255)) 7 100
              uKernel_SCHEDULED) as (s & E & _ & H).
  - apply NoDup_fmap_2; [apply _ | apply NoDup_seq].
  - intros H. apply list_elem_of_fmap in H as (n & Hn & Hin).
    apply elem_of_seq in Hin. unfold NULL in Hn. lia.
  - intros p Hp. apply list_elem_of_fmap in Hp as (n & -> & Hn).
    apply elem_of_seq in Hn.
    unfold slots. apply elem_of_dom. rewrite dom_list_to_map_L.
    apply elem_of_list_to_set. rewrite <- list_fmap_compose.
    apply list_elem_of_fmap. exists n. split; [reflexivity|].
    apply elem_of_seq. lia.
  - discriminate.
  - reflexivity.
  - lia.
  - exists s. split; [exact E | apply H].
Defined.

(** ** The blocking delay, in general *)

(** X19.  What [uKernelDelayMiliseconds] waits for.  When the tick counter
    plus the delay does not pass [2^32 - 1], the call returns after exactly
    [delay] ticks; when it does, the wrapped [newTime] is below the counter
    and the call returns at its first poll, with no tick waited.  Nothing
    but the tick counter differs on return. *)
Theorem delay_waits_unless_counter_wraps (fuel : nat) (delay : Z) (s : kernel) :
  uint32 (_counterMs s) -> 0 <= delay < 2 ^ 16 -> (Z.to_nat delay < fuel)%nat ->
  uKernelDelayMiliseconds fuel delay s =
    Ok (if _counterMs s + delay <? 2 ^ 32 then set_counterMs (_counterMs s + delay) s else s).
Proof.
  unfold uint32. intros Hc Hd Hf.
  destruct (Z.ltb_spec (_counterMs s + delay) (2 ^ 32)) as [Hno|Hov].
  - apply uKernelDelayMiliseconds_no_overflow; lia.
  - unfold uKernelDelayMiliseconds.
    assert (E : wrap32 (_counterMs s + delay) = _counterMs s + delay - 2 ^ 32).
    { unfold wrap32. symmetry. apply (Z.mod_unique _ _ 1); lia. }
    rewrite E. destruct fuel as [|fuel]; [lia|]. simpl.
    destruct (Z.ltb_spec (_counterMs s) (_counterMs s + delay - 2 ^ 32)); [lia | reflexivity].
Qed.

Lemma delay_waits_unless_counter_wraps_witness :
  uKernelDelayMiliseconds 400 300 (set_counterMs 1000 (uKernelInit (boot ∅))) =
    Ok (set_counterMs 1300 (uKernelInit (boot ∅))) /\
  uKernelDelayMiliseconds 400 300 (set_counterMs (2 ^ 32 - 300) (uKernelInit (boot ∅))) =
    Ok (set_counterMs (2 ^ 32 - 300) (uKernelInit (boot ∅))).
Proof.
  split.
  - apply (delay_waits_unless_counter_wraps 400 300 (set_counterMs 1000 (uKernelInit (boot ∅))));
      [unfold uint32; simpl; lia | lia | lia].
  - apply (delay_waits_unless_counter_wraps 400 300
             (set_counterMs (2 ^ 32 - 300) (uKernelInit (boot ∅))));
      [unfold uint32; simpl; lia | lia | lia].
Defined.

(** ** Modification *)

(** X20.  What [uKernelModifyTask] writes.  An accepted call (status at
    most 7) stores the interval as given, without the normalisation of a
    registration, and the status as given, and keeps the task body and the
    link.  The due time is the present tick plus the interval for
    [uKernel_SCHEDULED] and [uKernel_ONETIME]; for every other status it is
    0, so that the task counts as due exactly while the tick counter is
    below [2^31].  A status above 7 is refused with no change. *)
Theorem modify_writes (s : kernel) (p : ptr) (d : uKernelTaskDescriptor) (i st : Z) :
  _initialized s = true -> _numberTasks s ≠ MAX_TASKS_NUMBER -> p ≠ NULL ->
  mem s !! p = Some d ->
  (uKernel_ONETIME_IMMEDIATESTART < st -> uKernelModifyTask p i st s = Ok (false, s)) /\
  (st <= uKernel_ONETIME_IMMEDIATESTART ->
   uKernelModifyTask p i st s =
     Ok (true,
         set_mem (<[p := TaskDescriptor (taskPointer d) i
                           (if (st =? uKernel_SCHEDULED) || (st =? uKernel_ONETIME)
                            then wrap32 (_counterMs s + i) else 0)
                           st (pTaskNext d)]> (mem s)) s)) /\
  (forall c, uint32 c -> due c 0 = (c <? 2 ^ 31)).
Proof.
  intros Hi Hn Hp Hd. unfold uKernelModifyTask.
  rewrite (status_guard_passes s p Hi Hn Hp). split; [|split].
  - intros Hst. apply Z.gtb_lt in Hst. rewrite Hst. reflexivity.
  - intros Hst. destruct (Z.gtb_spec st uKernel_ONETIME_IMMEDIATESTART); [lia|].
    rewrite (store_at _ _ _ d Hp Hd). simpl bind.
    erewrite store_at; [|exact Hp|simpl; apply lookup_insert_eq]. simpl bind.
    destruct ((st =? uKernel_SCHEDULED) || (st =? uKernel_ONETIME));
      (erewrite store_at; [|exact Hp|simpl; apply lookup_insert_eq]); simpl bind;
      setters; rewrite !insert_insert_eq; reflexivity.
  - unfold uint32, due, to_int32, wrap32. intros c Hc.
    rewrite Z.sub_0_r, Z.mod_small by lia.
    destruct (Z.ltb_spec c (2 ^ 31)), (Z.leb_spec 0 c), (Z.leb_spec 0 (c - 2 ^ 32)); lia.
Qed.

Lemma modify_writes_witness :
  let s := Kernel true (2 ^ 31) 1 1 1 {[ 1%N := TaskDescriptor 7 3 40 uKernel_PAUSED 1 ]} [] in
  uKernelModifyTask 1 0 uKernel_IMMEDIATESTART s =
    Ok (true, set_mem {[ 1%N := TaskDescriptor 7 0 0 uKernel_IMMEDIATESTART 1 ]} s) /\
  due (_counterMs s) 0 = false /\
  uKernelModifyTask 1 0 uKernel_ERROR s = Ok (false, s).
Proof.
  intros s.
  destruct (modify_writes s 1 (TaskDescriptor 7 3 40 uKernel_PAUSED 1) 0 uKernel_IMMEDIATESTART)
    as (_ & H2 & H3); [reflexivity | discriminate | discriminate | reflexivity |].
  destruct (modify_writes s 1 (TaskDescriptor 7 3 40 uKernel_PAUSED 1) 0 uKernel_ERROR)
    as (H1 & _ & _); [reflexivity | discriminate | discriminate | reflexivity |].
  split; [|split].
  - rewrite H2 by (vm_compute; discriminate). simpl. rewrite insert_singleton_eq. reflexivity.
  - rewrite H3 by (unfold uint32; simpl; lia). reflexivity.
  - apply H1. reflexivity.
Defined.

(** ** One-shot task with immediate start *)

(** X21.  A task registered into an empty ring with
    [uKernel_ONETIME_IMMEDIATESTART] runs at the very next turn of the
    dispatch loop, without a tick in between, and is paused by that turn. *)
Theorem onetime_immediate_runs_at_once (fuel : nat) (p : ptr) (f : fnptr) (i : Z)
    (s : kernel) (d0 : uKernelTaskDescriptor) :
  _initialized s = true -> 0 <= _numberTasks s < MAX_TASKS_NUMBER -> f ≠ NULL ->
  p ≠ NULL -> mem s !! p = Some d0 -> pTaskFirst s = NULL -> uint32 (_counterMs s) ->
  exists s1 s2,
    uKernelAddTask fuel p f i uKernel_ONETIME_IMMEDIATESTART s = Ok (true, s1) /\
    uKernelScheduler_body s1 = Ok s2 /\
    trace s2 = trace s ++ [Call p f; Wdt] /\
    status_of s2 p = Some uKernel_PAUSED.
Proof.
  intros Hi Hn Hf Hp Hd Hfirst Hc.
  assert (Hn' : _numberTasks s ≠ MAX_TASKS_NUMBER) by lia.
  pose proof (uKernelAddTask_first fuel p f i uKernel_ONETIME_IMMEDIATESTART s d0
                Hi Hn' Hf Hp Hd Hfirst) as E.
  simpl in E. rewrite Z.add_0_r, wrap32_small in E by exact Hc.
  eexists _, _. split; [exact E|].
  unfold MAX_TASKS_NUMBER in Hn.
  erewrite uKernelScheduler_body_at;
    [ | exact Hp | simpl; rewrite wrap8_small by lia; lia
      | simpl; apply lookup_insert_eq | exact Hf ].
  simpl taskStatus. simpl plannedTask. simpl _counterMs.
  assert (Hdue : due (_counterMs s) (_counterMs s) = true).
  { unfold due, wrap32, to_int32. rewrite Z.sub_diag. reflexivity. }
  rewrite Hdue. simpl. split; [reflexivity|]. simpl. rewrite <- app_assoc. simpl.
  split; [reflexivity|]. unfold status_of. simpl. rewrite lookup_insert_eq. reflexivity.
Qed.

Lemma onetime_immediate_runs_at_once_witness :
  exists s1 s2,
    uKernelAddTask 0 1 7 100 uKernel_ONETIME_IMMEDIATESTART (uKernelInit (boot (slots 3)))
      = Ok (true, s1) /\
    uKernelScheduler_body s1 = Ok s2 /\ trace s2 = [Call 1 7; Wdt] /\
    status_of s2 1 = Some uKernel_PAUSED.
Proof.
  apply (onetime_immediate_runs_at_once 0 1 7 100 (uKernelInit (boot (slots 3))) blank).
  - reflexivity.
  - simpl. unfold MAX_TASKS_NUMBER. lia.
  - discriminate.
  - discriminate.
  - vm_compute; reflexivity.
  - reflexivity.
  - unfold uint32. simpl. lia.
Defined.

(** ** The dispatch loop with nothing to do *)

(** X22.  With a null dispatch cursor or a task count of 0 the dispatch loop
    runs no task: [k] turns leave every variable and every descriptor as
    they are and only serve the watchdog [k] times.  This holds as well when
    the ring still has linked descriptors, as after the removal of the last
    counted task. *)
Theorem dispatch_idles_without_tasks (k : nat) (s : kernel) :
  pTaskSchedule s = NULL \/ _numberTasks s = 0 ->
  uKernelScheduler k s =
    Ok (Kernel (_initialized s) (_counterMs s) (_numberTasks s) (pTaskSchedule s) (pTaskFirst s)
               (mem s) (trace s ++ replicate k Wdt)).
Proof.
  revert s. induction k as [|k IH]; intros s Hidle; simpl.
  - rewrite app_nil_r. destruct s; reflexivity.
  - rewrite (uKernelScheduler_body_idle s Hidle). simpl bind.
    rewrite IH by exact Hidle. simpl. rewrite <- app_assoc. reflexivity.
Qed.

Lemma dispatch_idles_without_tasks_witness :
  exists s s1,
    run 3 (Init :: register_all [1%N] 7 100 uKernel_IMMEDIATESTART) (boot (slots 3)) = Ok s /\
    uKernelRemoveTask 1 1 s = Ok (true, s1) /\ pTaskSchedule s1 = 1%N /\
    uKernelScheduler 3 s1 =
      Ok (Kernel true 0 0 1 1 (mem s) [Wdt; Wdt; Wdt]).
Proof.
  eexists _, _. split; [vm_compute; reflexivity|]. split; [vm_compute; reflexivity|].
  split; [reflexivity|].
  rewrite dispatch_idles_without_tasks by (right; reflexivity). reflexivity.
Defined.
